(** * CME NLP processor: test intent detection and demeanor analysis

    Shallow embedding of [src/backend/lambda_functions/cme_nlp_processor.py]
    (classes [CMENLPProcessor] and [process_transcript_for_cme_analysis]) and
    of [generate_report], the step map and timestamp sort of
    [_gather_session_data], and the summary, discrepancy and [MM:SS] logic
    of [_generate_html_report] in
    [src/backend/lambda_functions/cme_report_generator.py].

    Modelling conventions:
    - Python [str] is [String.string] (one Latin-1 code point per [ascii]).
    - Python floats are modelled by their value as a rational [Q]; the
      timestamps are only compared, and the confidence arithmetic
      [0.3 * min(k/n, 1.0) + 0.7 + 0.2] is computed exactly.
    - A raised exception is [None] in the [option] error monad; the
      [try ... except Exception: return []] blocks turn it into [[]].
    - [float(x)] on a transcript field is [parse_time]: a field is either a
      number ([RNum]) or a value that [float] rejects ([RBad]); a missing key
      falls back to the default [0] of [.get(key, 0)]. *)

From Stdlib Require Import String Ascii List Bool ZArith QArith Lia.
From Stdlib Require Import Numbers.DecimalString Lqa Qround Sorted Permutation.
Import ListNotations.
Open Scope string_scope.

(** ** Error monad *)

Definition bind {A B} (m : option A) (k : A -> option B) : option B :=
  match m with Some a => k a | None => None end.
Notation "x <- m ;; k" := (bind m (fun x => k))
  (at level 61, m at next level, right associativity).

(** ** Python string primitives *)

(** [str.lower] on the Latin-1 range: [A-Z], [\xC0-\xD6] and [\xD8-\xDE]
    map 32 code points up; everything else is unchanged. *)
Definition lower_char (c : ascii) : ascii :=
  let n := nat_of_ascii c in
  if (((65 <=? n) && (n <=? 90)) || ((192 <=? n) && (n <=? 214))
      || ((216 <=? n) && (n <=? 222)))%nat
  then ascii_of_nat (n + 32) else c.

Fixpoint lower (s : string) : string :=
  match s with
  | EmptyString => EmptyString
  | String c s' => String (lower_char c) (lower s')
  end.

(** Python's [needle in haystack] on strings. *)
Fixpoint str_contains (needle hay : string) : bool :=
  prefix needle hay ||
  match hay with
  | EmptyString => false
  | String _ hay' => str_contains needle hay'
  end.

(** Python's slice [s[:n]]. *)
Definition take (n : nat) (s : string) : string := substring 0 n s.

(** Python's [' '.join(ws)]. *)
Definition join_space (ws : list string) : string := String.concat " " ws.

(** [str.isspace], which is what [\s] matches in a [str] pattern, on the
    Latin-1 range. *)
Definition is_space (c : ascii) : bool :=
  let n := nat_of_ascii c in
  (((9 <=? n) && (n <=? 13)) || ((28 <=? n) && (n <=? 31)) || (n =? 32)
   || (n =? 133) || (n =? 160))%nat.

Definition nat_to_string (n : nat) : string :=
  NilEmpty.string_of_uint (Nat.to_uint n).

(** ** Regular expressions ([re.search])

    The subset of Python regex syntax used by the source's pattern tables:
    literals, [\s], character classes, [+], [*], [?] and non-capturing
    alternation.  [re.search] asks whether some substring matches; we decide
    it with Brzozowski derivatives. *)

Inductive cls_item :=
  | CChar (c : ascii)
  | CSpace.

Inductive regex :=
  | RNull
  | REps
  | RAnyChar
  | RChar (c : ascii)
  | RClass (cs : list cls_item)
  | RSeq (r1 r2 : regex)
  | RAlt (r1 r2 : regex)
  | RStar (r : regex).

Section Matcher.
(** [icase] is [re.IGNORECASE]. *)
Variable icase : bool.

Definition char_eq (p c : ascii) : bool :=
  if icase then Ascii.eqb (lower_char p) (lower_char c) else Ascii.eqb p c.

Definition cls_match (i : cls_item) (c : ascii) : bool :=
  match i with
  | CChar p => char_eq p c
  | CSpace => is_space c
  end.

Fixpoint nullable (r : regex) : bool :=
  match r with
  | RNull | RAnyChar | RChar _ | RClass _ => false
  | REps | RStar _ => true
  | RSeq r1 r2 => nullable r1 && nullable r2
  | RAlt r1 r2 => nullable r1 || nullable r2
  end.

(** Smart constructors that prune dead branches. *)
Definition mk_seq (r1 r2 : regex) : regex :=
  match r1, r2 with
  | RNull, _ | _, RNull => RNull
  | REps, _ => r2
  | _, _ => RSeq r1 r2
  end.

Definition mk_alt (r1 r2 : regex) : regex :=
  match r1, r2 with
  | RNull, _ => r2
  | _, RNull => r1
  | _, _ => RAlt r1 r2
  end.

Fixpoint deriv (c : ascii) (r : regex) : regex :=
  match r with
  | RNull | REps => RNull
  | RAnyChar => REps
  | RChar p => if char_eq p c then REps else RNull
  | RClass cs => if existsb (fun i => cls_match i c) cs then REps else RNull
  | RSeq r1 r2 =>
      mk_alt (mk_seq (deriv c r1) r2)
             (if nullable r1 then deriv c r2 else RNull)
  | RAlt r1 r2 => mk_alt (deriv c r1) (deriv c r2)
  | RStar r1 => mk_seq (deriv c r1) (RStar r1)
  end.

Fixpoint matches (r : regex) (s : string) : bool :=
  match s with
  | EmptyString => nullable r
  | String c s' => matches (deriv c r) s'
  end.

(** [re.search(pattern, s)] succeeds iff some substring of [s] matches. *)
Definition re_search (r : regex) (s : string) : bool :=
  matches (RSeq (RStar RAnyChar) (RSeq r (RStar RAnyChar))) s.
End Matcher.

(** Pattern-building helpers, read as the regex syntax they stand for. *)
Fixpoint lit (s : string) : regex :=
  match s with
  | EmptyString => REps
  | String c EmptyString => RChar c
  | String c s' => RSeq (RChar c) (lit s')
  end.
Fixpoint seqs (rs : list regex) : regex :=
  match rs with
  | [] => REps
  | [r] => r
  | r :: rs' => RSeq r (seqs rs')
  end.
Fixpoint alts (rs : list regex) : regex :=
  match rs with
  | [] => RNull
  | [r] => r
  | r :: rs' => RAlt r (alts rs')
  end.
Definition plus (r : regex) : regex := RSeq r (RStar r).
Definition opt (r : regex) : regex := RAlt r REps.
(** [\s+] *)
Definition ws1 : regex := plus (RClass [CSpace]).
(** [(?:a|b|...)] over literal words *)
Definition words (ws : list string) : regex := alts (map lit ws).
Definition apos : ascii := "'"%char.

(** ** Numbers and small helpers *)

Definition Qltb (x y : Q) : bool := negb (Qle_bool y x).
Definition Qmin (x y : Q) : Q := if Qle_bool x y then x else y.

Definition opt_str_eqb (a b : option string) : bool :=
  match a, b with
  | Some x, Some y => String.eqb x y
  | None, None => true
  | _, _ => false
  end.

Definition Z_to_string (z : Z) : string := NilEmpty.string_of_int (Z.to_int z).

(** The double-quote character, for f-strings that embed one. *)
Definition dq : string := String (ascii_of_nat 34) EmptyString.

(** [f"{x:.2f}"] for the non-negative scores it is applied to: the value is
    rounded half-to-even to two decimals. *)
Definition fmt2 (q : Q) : string :=
  let n := (Qnum q * 100)%Z in
  let d := Zpos (Qden q) in
  let fl := Z.div n d in
  let r := Z.modulo n d in
  let z := if (2 * r <? d)%Z then fl
           else if (d <? 2 * r)%Z then (fl + 1)%Z
           else if Z.even fl then fl else (fl + 1)%Z in
  let fp := Z.modulo z 100 in
  Z_to_string (Z.div z 100) ++ "." ++ (if (fp <? 10)%Z then "0" else "")
    ++ Z_to_string fp.

(** ** [TEST_TAXONOMY] *)

Record test_config := {
  keywords : list string;
  patterns : list regex
}.

Definition the_ : regex := opt (seqs [lit "the"; ws1]).

Definition TEST_TAXONOMY : list (string * test_config) := [
  ("spine", {|
     keywords := ["spine"; "spinal"; "vertebra"; "vertebrae"; "back"];
     patterns := [
       (* check\s+(?:the\s+)?spine *)
       seqs [lit "check"; ws1; the_; lit "spine"];
       (* examine\s+(?:the\s+)?back *)
       seqs [lit "examine"; ws1; the_; lit "back"];
       (* spinal\s+(?:examination|assessment) *)
       seqs [lit "spinal"; ws1; words ["examination"; "assessment"]] ] |});
  ("lumbar_rom", {|
     keywords := ["lumbar"; "lower back"; "range of motion"; "rom"; "flexion";
                  "extension"; "bend forward"; "bend backward"];
     patterns := [
       (* (?:lumbar|lower\s+back)\s+range\s+of\s+motion *)
       seqs [alts [lit "lumbar"; seqs [lit "lower"; ws1; lit "back"]]; ws1;
             lit "range"; ws1; lit "of"; ws1; lit "motion"];
       (* (?:forward|backward)\s+(?:flexion|bending) *)
       seqs [words ["forward"; "backward"]; ws1; words ["flexion"; "bending"]];
       (* rom\s+test *)
       seqs [lit "rom"; ws1; lit "test"] ] |});
  ("straight_leg_raise", {|
     keywords := ["straight leg"; "slr"; "leg raise"; "lasegue"; "raise your leg"];
     patterns := [
       (* straight\s+leg\s+(?:raise|test) *)
       seqs [lit "straight"; ws1; lit "leg"; ws1; words ["raise"; "test"]];
       (* slr\s+test *)
       seqs [lit "slr"; ws1; lit "test"];
       (* lasegue[\'s]*\s+(?:test|sign) *)
       seqs [lit "lasegue"; RStar (RClass [CChar apos; CChar "s"]); ws1;
             words ["test"; "sign"]] ] |});
  ("waddells_signs", {|
     keywords := ["waddell"; "non-organic"; "behavioral"; "non organic"];
     patterns := [
       (* waddell[\'s]*\s+(?:signs|test) *)
       seqs [lit "waddell"; RStar (RClass [CChar apos; CChar "s"]); ws1;
             words ["signs"; "test"]];
       (* non[-\s]organic\s+(?:signs|findings) *)
       seqs [lit "non"; RClass [CChar "-"; CSpace]; lit "organic"; ws1;
             words ["signs"; "findings"]] ] |});
  ("cervical_rom", {|
     keywords := ["cervical"; "neck"; "rotation"; "lateral flexion";
                  "turn your head"; "neck movement"];
     patterns := [
       (* cervical\s+(?:range\s+of\s+motion|rom) *)
       seqs [lit "cervical"; ws1;
             alts [seqs [lit "range"; ws1; lit "of"; ws1; lit "motion"]; lit "rom"]];
       (* neck\s+(?:rotation|flexion|movement) *)
       seqs [lit "neck"; ws1; words ["rotation"; "flexion"; "movement"]];
       (* turn\s+(?:your\s+)?head *)
       seqs [lit "turn"; ws1; opt (seqs [lit "your"; ws1]); lit "head"] ] |});
  ("gait", {|
     keywords := ["gait"; "walking"; "ambulation"; "mobility"; "walk";
                  "heel-to-toe"; "tandem"];
     patterns := [
       (* gait\s+(?:analysis|assessment|test) *)
       seqs [lit "gait"; ws1; words ["analysis"; "assessment"; "test"]];
       (* (?:walk|walking)\s+(?:test|assessment) *)
       seqs [words ["walk"; "walking"]; ws1; words ["test"; "assessment"]];
       (* heel[-\s]to[-\s]toe *)
       seqs [lit "heel"; RClass [CChar "-"; CSpace]; lit "to";
             RClass [CChar "-"; CSpace]; lit "toe"];
       (* tandem\s+(?:walk|gait) *)
       seqs [lit "tandem"; ws1; words ["walk"; "gait"]] ] |});
  ("neurological", {|
     keywords := ["reflex"; "reflexes"; "sensation"; "sensory"; "motor";
                  "strength"; "muscle strength"; "patellar"; "achilles"];
     patterns := [
       (* (?:reflex|reflexes)\s+test *)
       seqs [words ["reflex"; "reflexes"]; ws1; lit "test"];
       (* (?:sensory|sensation)\s+(?:test|examination) *)
       seqs [words ["sensory"; "sensation"]; ws1; words ["test"; "examination"]];
       (* motor\s+(?:strength|function) *)
       seqs [lit "motor"; ws1; words ["strength"; "function"]];
       (* (?:patellar|achilles|bicep|tricep)\s+reflex *)
       seqs [words ["patellar"; "achilles"; "bicep"; "tricep"]; ws1; lit "reflex"] ] |});
  ("palpation", {|
     keywords := ["palpate"; "palpating"; "feel"; "touch"; "tender";
                  "tenderness"; "press"];
     patterns := [
       (* (?:palpate|palpating)\s+(?:the\s+)?(?:spine|back|neck|area) *)
       seqs [words ["palpate"; "palpating"]; ws1; the_;
             words ["spine"; "back"; "neck"; "area"]];
       (* check\s+for\s+tenderness *)
       seqs [lit "check"; ws1; lit "for"; ws1; lit "tenderness"];
       (* feel\s+(?:the\s+)?(?:spine|muscles) *)
       seqs [lit "feel"; ws1; the_; words ["spine"; "muscles"]] ] |});
  ("orthopedic", {|
     keywords := ["orthopedic"; "musculoskeletal"; "joint"; "hip"; "knee";
                  "shoulder"; "ankle"];
     patterns := [
       (* orthopedic\s+(?:examination|assessment|test) *)
       seqs [lit "orthopedic"; ws1; words ["examination"; "assessment"; "test"]];
       (* (?:hip|knee|shoulder|ankle)\s+(?:test|examination) *)
       seqs [words ["hip"; "knee"; "shoulder"; "ankle"]; ws1;
             words ["test"; "examination"]];
       (* joint\s+(?:mobility|function) *)
       seqs [lit "joint"; ws1; words ["mobility"; "function"]] ] |});
  ("cognitive", {|
     keywords := ["memory"; "concentration"; "cognitive"; "mental status";
                  "orientation"; "recall"];
     patterns := [
       (* cognitive\s+(?:test|assessment|function) *)
       seqs [lit "cognitive"; ws1; words ["test"; "assessment"; "function"]];
       (* mental\s+status\s+exam *)
       seqs [lit "mental"; ws1; lit "status"; ws1; lit "exam"];
       (* memory\s+test *)
       seqs [lit "memory"; ws1; lit "test"];
       (* orientation\s+(?:test|assessment) *)
       seqs [lit "orientation"; ws1; words ["test"; "assessment"]] ] |})
].

(** ** Demeanor pattern tables *)

Definition NEGATIVE_TONE_INDICATORS : list string := [
  "that's ridiculous"; "you're lying"; "i don't believe"; "that's impossible";
  "come on"; "really?"; "seriously?"; "you're exaggerating";
  "that doesn't make sense"].

Definition INTERRUPTION_PATTERNS : list regex := [
  (* stop\s+(?:talking|speaking) *)
  seqs [lit "stop"; ws1; words ["talking"; "speaking"]];
  (* let\s+me\s+(?:speak|talk) *)
  seqs [lit "let"; ws1; lit "me"; ws1; words ["speak"; "talk"]];
  (* don\'t\s+(?:interrupt|talk) *)
  seqs [lit "don't"; ws1; words ["interrupt"; "talk"]];
  (* be\s+quiet *)
  seqs [lit "be"; ws1; lit "quiet"];
  (* shut\s+up *)
  seqs [lit "shut"; ws1; lit "up"]].

Definition DISMISSIVE_PATTERNS : list regex := [
  (* (?:doesn\'t|does\s+not)\s+matter *)
  seqs [alts [lit "doesn't"; seqs [lit "does"; ws1; lit "not"]]; ws1; lit "matter"];
  (* not\s+important *)
  seqs [lit "not"; ws1; lit "important"];
  (* (?:don\'t|do\s+not)\s+care\s+about *)
  seqs [alts [lit "don't"; seqs [lit "do"; ws1; lit "not"]]; ws1; lit "care"; ws1;
        lit "about"];
  (* that\'s\s+(?:irrelevant|not\s+relevant) *)
  seqs [lit "that's"; ws1;
        alts [lit "irrelevant"; seqs [lit "not"; ws1; lit "relevant"]]]].

(** ** [_analyze_text_for_tests] *)

Definition declaration_phrases : list string := [
  "now we"; "let's"; "going to"; "want to"; "need to";
  "i'm going to"; "i'm checking"; "i need"; "we're going to"].

Record test_candidate := {
  c_label : string;
  c_timestamp : Q;
  c_confidence : Q;
  c_matched_text : string
}.

Definition keyword_matches (cfg : test_config) (text_lower : string) : nat :=
  length (filter (fun kw => str_contains kw text_lower) (keywords cfg)).

Definition pattern_matches (cfg : test_config) (text_lower : string) : nat :=
  length (filter (fun p => re_search true p text_lower) (patterns cfg)).

Definition has_declaration (text_lower : string) : bool :=
  existsb (fun phrase => str_contains phrase text_lower) declaration_phrases.

(** The running [confidence] of one category, before clamping. *)
Definition category_score (cfg : test_config) (text_lower : string) : Q :=
  let k := keyword_matches cfg text_lower in
  let c1 := if (0 <? k)%nat
            then 0 + (3 # 10) * Qmin (inject_Z (Z.of_nat k)
                                      / inject_Z (Z.of_nat (length (keywords cfg)))) 1
            else 0 in
  let c2 := if (0 <? pattern_matches cfg text_lower)%nat then c1 + (7 # 10) else c1 in
  if has_declaration text_lower && Qltb 0 c2 then c2 + (2 # 10) else c2.

Definition analyze_text_for_tests (taxonomy : list (string * test_config))
    (text : string) (timestamp : Q) : list test_candidate :=
  let text_lower := lower text in
  flat_map (fun '(test_label, cfg) =>
      let confidence := category_score cfg text_lower in
      if Qle_bool (1 # 2) confidence
      then [{| c_label := test_label; c_timestamp := timestamp;
               c_confidence := Qmin confidence 1;
               c_matched_text := take 200 text |}]
      else [])
    taxonomy.

(** ** Transcript (AWS Transcribe output) *)

(** A time field as [float] sees it. *)
Inductive raw_time :=
  | RNum (q : Q)
  | RBad.

(** [float(d.get(key, 0))]: [None] is a missing key. *)
Definition parse_time (f : option raw_time) : option Q :=
  match f with
  | None => Some 0
  | Some (RNum q) => Some q
  | Some RBad => None
  end.

Record segment := {
  speaker_label : option string;
  seg_start : option raw_time;
  seg_end : option raw_time
}.

(** [alternatives] is [None] when the key is missing; each alternative
    carries its optional [content]. *)
Record item := {
  item_type : option string;
  item_start : option raw_time;
  alternatives : option (list (option string))
}.

(** [transcript['results']['items']] and
    [transcript['results']['speaker_labels']['segments']], each [[]] when a
    key on the way is missing. *)
Record transcript := {
  items : list item;
  segments : list segment
}.

(** [item.get('alternatives', [{}])[0].get('content', '')]; indexing an
    empty list raises. *)
Definition item_content (it : item) : option string :=
  match alternatives it with
  | None => Some ""
  | Some [] => None
  | Some (a :: _) => Some (match a with Some c => c | None => "" end)
  end.

(** ** [_get_segment_text] *)

Fixpoint collect_words (segment_start segment_end : Q) (its : list item)
    : option (list string) :=
  match its with
  | [] => Some []
  | it :: rest =>
      if opt_str_eqb (item_type it) (Some "pronunciation") then
        item_start <- parse_time (item_start it);;
        if Qle_bool segment_start item_start && Qle_bool item_start segment_end then
          content <- item_content it;;
          ws <- collect_words segment_start segment_end rest;;
          Some (content :: ws)
        else collect_words segment_start segment_end rest
      else collect_words segment_start segment_end rest
  end.

Definition get_segment_text (seg : segment) (its : list item) : option string :=
  segment_start <- parse_time (seg_start seg);;
  segment_end <- parse_time (seg_end seg);;
  ws <- collect_words segment_start segment_end its;;
  Some (join_space ws).

(** ** [detect_declared_tests] *)

Record declared_test := {
  label : string;
  timestamp : Q;
  confidence : Q;
  matched_text : string;
  speaker : string;
  transcript_text : string
}.

Definition with_segment (spk txt : string) (c : test_candidate) : declared_test :=
  {| label := c_label c; timestamp := c_timestamp c; confidence := c_confidence c;
     matched_text := c_matched_text c; speaker := spk; transcript_text := txt |}.

Fixpoint detect_loop (taxonomy : list (string * test_config)) (its : list item)
    (segs : list segment) : option (list declared_test) :=
  match segs with
  | [] => Some []
  | seg :: rest =>
      let spk := match speaker_label seg with Some s => s | None => "unknown" end in
      start_time <- parse_time (seg_start seg);;
      _end_time <- parse_time (seg_end seg);;
      segment_text <- get_segment_text seg its;;
      let tests := map (with_segment spk segment_text)
                       (analyze_text_for_tests taxonomy segment_text start_time) in
      more <- detect_loop taxonomy its rest;;
      Some (tests ++ more)%list
  end.

Definition detect_declared_tests (taxonomy : list (string * test_config))
    (t : transcript) : list declared_test :=
  match detect_loop taxonomy (items t) (segments t) with
  | Some l => l
  | None => []
  end.

(** ** Demeanor flags *)

Record flag := {
  flag_type : string;
  f_timestamp : Q;
  transcript_excerpt : string;
  severity : string;
  description : string;
  (** only the [negative_sentiment] flag carries [sentiment_scores] *)
  sentiment_scores : option (list (string * Q))
}.

Definition mk_flag (ty : string) (ts : Q) (excerpt sev descr : string) : flag :=
  {| flag_type := ty; f_timestamp := ts; transcript_excerpt := excerpt;
     severity := sev; description := descr; sentiment_scores := None |}.

(** [_analyze_tone] *)
Definition analyze_tone (text : string) (ts : Q) : list flag :=
  let text_lower := lower text in
  map (fun indicator =>
         mk_flag "negative_tone" ts (take 200 text) "high"
           ("Negative language detected: " ++ dq ++ indicator ++ dq))
      (filter (fun indicator => str_contains indicator text_lower)
              NEGATIVE_TONE_INDICATORS)
  ++ map (fun _ => mk_flag "dismissive" ts (take 200 text) "medium"
                     "Dismissive language detected")
         (filter (fun p => re_search false p text_lower) DISMISSIVE_PATTERNS)
  ++ map (fun _ => mk_flag "aggressive" ts (take 200 text) "high"
                     "Aggressive or controlling language detected")
         (filter (fun p => re_search false p text_lower) INTERRUPTION_PATTERNS).

Definition interruption_flag (ts : Q) (text : string) (consecutive_count : nat)
    : flag :=
  mk_flag "interruption" ts (take 200 text) "medium"
    ("Examiner spoke " ++ nat_to_string (S consecutive_count)
     ++ " times consecutively").

(** The [for i, segment in enumerate(segments)] loop of
    [analyze_examiner_demeanor], threading [consecutive_count] and
    [last_speaker] ([None] is Python's [None]). *)
Fixpoint demeanor_loop (examiner : string) (its : list item) (segs : list segment)
    (consecutive_count : nat) (last_speaker : option string)
    : option (list flag) :=
  match segs with
  | [] => Some []
  | seg :: rest =>
      let spk := speaker_label seg in
      start_time <- parse_time (seg_start seg);;
      segment_text <- get_segment_text seg its;;
      if opt_str_eqb spk (Some examiner) then
        let '(count', iflags) :=
          if opt_str_eqb last_speaker (Some examiner) then
            let c := S consecutive_count in
            (c, if (2 <=? c)%nat then [interruption_flag start_time segment_text c]
                else [])
          else (0%nat, []) in
        let tflags := analyze_tone segment_text start_time in
        more <- demeanor_loop examiner its rest count' spk;;
        Some (iflags ++ tflags ++ more)%list
      else
        demeanor_loop examiner its rest consecutive_count spk
  end.

(** The sentiment oracle (AWS Comprehend [detect_sentiment]): [None] when the
    call raises. *)
Record sentiment_response := {
  sentiment : option string;
  sentiment_score : list (string * Q)
}.

Definition oracle := string -> option sentiment_response.

Fixpoint assoc (k : string) (l : list (string * Q)) : option Q :=
  match l with
  | [] => None
  | (k', v) :: l' => if String.eqb k k' then Some v else assoc k l'
  end.

(** [_analyze_sentiment_comprehend]: every failure inside is caught. *)
Definition analyze_sentiment_comprehend (detect_sentiment : oracle) (text : string)
    (segs : list segment) : list flag :=
  let text_sample := take 5000 text in
  match detect_sentiment text_sample with
  | None => []
  | Some response =>
      let negative := assoc "Negative" (sentiment_score response) in
      if opt_str_eqb (sentiment response) (Some "NEGATIVE")
         && Qltb (6 # 10) (match negative with Some v => v | None => 0 end)
      then
        match (match segs with
               | [] => Some 0
               | s :: _ => parse_time (seg_start s)
               end) with
        | None => []
        | Some ts =>
            [{| flag_type := "negative_sentiment"; f_timestamp := ts;
                transcript_excerpt := take 200 text_sample;
                severity := "medium";
                description := "Overall negative sentiment detected (score: "
                               ++ fmt2 (match negative with Some v => v | None => 0 end)
                               ++ ")";
                sentiment_scores := Some (sentiment_score response) |}]
        end
      else []
  end.

Fixpoint map_opt {A B} (f : A -> option B) (l : list A) : option (list B) :=
  match l with
  | [] => Some []
  | a :: l' => b <- f a;; bs <- map_opt f l';; Some (b :: bs)
  end.

Definition demeanor_pass (detect_sentiment : oracle) (examiner : string)
    (t : transcript) : option (list flag) :=
  let segs := segments t in
  let its := items t in
  let examiner_segments :=
    filter (fun s => opt_str_eqb (speaker_label s) (Some examiner)) segs in
  demeanor_flags <- demeanor_loop examiner its segs 0 None;;
  texts <- map_opt (fun s => get_segment_text s its) (firstn 10 examiner_segments);;
  let examiner_text := join_space texts in
  Some (demeanor_flags ++
        (if String.eqb examiner_text "" then []
         else analyze_sentiment_comprehend detect_sentiment examiner_text
                examiner_segments))%list.

(** [analyze_examiner_demeanor]; its default examiner label is
    ['speaker_0']. *)
Definition analyze_examiner_demeanor (detect_sentiment : oracle) (examiner : string)
    (t : transcript) : list flag :=
  match demeanor_pass detect_sentiment examiner t with
  | Some l => l
  | None => []
  end.

(** ** [process_transcript_for_cme_analysis] *)

Record analysis_result := {
  session_id : string;
  declared_tests : list declared_test;
  demeanor_flags : list flag;
  processing_timestamp : Z;
  status : string
}.

(** [now] is [int(time.time())]. *)
Definition process_transcript_for_cme_analysis (detect_sentiment : oracle) (now : Z)
    (sid : string) (t : transcript) : analysis_result :=
  {| session_id := sid;
     declared_tests := detect_declared_tests TEST_TAXONOMY t;
     demeanor_flags := analyze_examiner_demeanor detect_sentiment "speaker_0" t;
     processing_timestamp := now;
     status := "completed" |}.

(** ** Report generator: discrepancy highlighting in [_generate_html_report] *)

Record observed_action := {
  action_declared_step_id : option string;
  motion_present : option string;
  pose_match : option string
}.

Record declared_step := {
  declared_step_id : string;
  step_label : option string
}.

(** [step_actions] of [_gather_session_data]: a later action for the same
    step id overwrites an earlier one; a falsy id is skipped. *)
Definition step_actions (all_actions : list observed_action)
    : string -> option observed_action :=
  fold_left (fun m a =>
      match action_declared_step_id a with
      | Some sid => if String.eqb sid "" then m
                    else fun k => if String.eqb k sid then Some a else m k
      | None => m
      end) all_actions (fun _ => None).

(** [step_actions.get(step_id, {}).get('motion_present', 'unknown')] *)
Definition shown_motion (acts : string -> option observed_action)
    (step : declared_step) : string :=
  match acts (declared_step_id step) with
  | Some a => match motion_present a with Some m => m | None => "unknown" end
  | None => "unknown"
  end.

(** [is_discrepancy = motion_present in ['not_observed', 'brief']] *)
Definition is_discrepancy (acts : string -> option observed_action)
    (step : declared_step) : bool :=
  existsb (String.eqb (shown_motion acts step)) ["not_observed"; "brief"].

(** [step_actions.get(id, {}).get('motion_present') == v] *)
Definition motion_is (acts : string -> option observed_action) (v : string)
    (step : declared_step) : bool :=
  match acts (declared_step_id step) with
  | Some a => opt_str_eqb (motion_present a) (Some v)
  | None => false
  end.



(** ** Well-formed transcripts and specification-side views *)

(** A time field that [float] accepts (or that is missing, defaulting to 0). *)
Definition time_ok (f : option raw_time) : bool :=
  match f with Some RBad => false | _ => true end.

Definition is_pronunciation (it : item) : bool :=
  opt_str_eqb (item_type it) (Some "pronunciation").

(** The transcript data model: a spoken word has a start time and a text. *)
Definition item_wf (it : item) : bool :=
  negb (is_pronunciation it)
  || (time_ok (item_start it)
      && match alternatives it with Some [] => false | _ => true end).

Definition segment_wf (s : segment) : bool :=
  time_ok (seg_start s) && time_ok (seg_end s).

Definition transcript_wf (t : transcript) : bool :=
  forallb item_wf (items t) && forallb segment_wf (segments t).

Definition item_time (it : item) : Q :=
  match parse_time (item_start it) with Some q => q | None => 0 end.

Definition item_text (it : item) : string :=
  match item_content it with Some c => c | None => "" end.

Definition seg_time (s : segment) : Q :=
  match parse_time (seg_start s) with Some q => q | None => 0 end.

(** Specification of the extractor (spec 4.1): the space-joined texts of the
    pronunciation items whose start lies in the closed window. *)
Definition in_window (ss se : Q) (it : item) : bool :=
  is_pronunciation it && Qle_bool ss (item_time it) && Qle_bool (item_time it) se.

Definition spec_segment_text (ss se : Q) (its : list item) : string :=
  join_space (map item_text (filter (in_window ss se) its)).

Definition is_examiner (examiner : string) (s : segment) : bool :=
  opt_str_eqb (speaker_label s) (Some examiner).

(** Specification of interruption detection (spec 4.3): the segments that are
    the third or a later one of a run of consecutive examiner segments.
    [p2] and [p1] say whether the two previous segments were the examiner's. *)
Fixpoint third_in_run (examiner : string) (p2 p1 : bool) (segs : list segment)
    : list segment :=
  match segs with
  | [] => []
  | s :: rest =>
      let e := is_examiner examiner s in
      ((if p2 && p1 && e then [s] else []) ++ third_in_run examiner p1 e rest)%list
  end.

Definition is_interruption (f : flag) : bool := String.eqb (flag_type f) "interruption".

Definition is_negative_sentiment (f : flag) : bool :=
  String.eqb (flag_type f) "negative_sentiment".

(** The kinds of flag the analyzer emits, each with its severity. *)
Definition flag_kind_ok (f : flag) : Prop :=
  (flag_type f = "interruption" /\ severity f = "medium") \/
  (flag_type f = "dismissive" /\ severity f = "medium") \/
  (flag_type f = "negative_sentiment" /\ severity f = "medium") \/
  (flag_type f = "negative_tone" /\ severity f = "high") \/
  (flag_type f = "aggressive" /\ severity f = "high").

(** ** Concrete transcripts *)

Definition word (w : string) (t : Q) : item :=
  {| item_type := Some "pronunciation"; item_start := Some (RNum t);
     alternatives := Some [Some w] |}.

Definition exam_items : list item :=
  [word "Let's" 1; word "do" 2; word "the" 3; word "straight" 4; word "leg" 5;
   word "raise" 6;
   {| item_type := Some "punctuation"; item_start := None;
      alternatives := Some [Some "."] |};
   word "that's" 7; word "ridiculous" 8].

Definition examiner_segment : segment :=
  {| speaker_label := Some "speaker_0"; seg_start := Some (RNum 0);
     seg_end := Some (RNum 10) |}.

(** A second segment whose [start_time] [float] rejects. *)
Definition malformed_segment : segment :=
  {| speaker_label := Some "speaker_1"; seg_start := Some RBad;
     seg_end := Some (RNum 12) |}.

Definition good_transcript : transcript :=
  {| items := exam_items; segments := [examiner_segment] |}.

Definition bad_transcript : transcript :=
  {| items := exam_items; segments := [examiner_segment; malformed_segment] |}.

(** A sentiment oracle whose call always raises. *)
Definition failing_oracle : oracle := fun _ => None.

(** ** Scenario data *)

Definition slr_text : string :=
  "Now let's check your straight leg raise, please lie back".

(** [straight\s+leg\s+(?:raise|test)], the first [straight_leg_raise] rule *)
Definition slr_pattern : regex :=
  seqs [lit "straight"; ws1; lit "leg"; ws1; words ["raise"; "test"]].

(** ** Further views of the transcript *)

Definition seg_end_time (s : segment) : Q :=
  match parse_time (seg_end s) with Some q => q | None => 0 end.

(** The text [_get_segment_text] gives a well-formed segment. *)
Definition seg_text (its : list item) (s : segment) : string :=
  spec_segment_text (seg_time s) (seg_end_time s) its.

(** ** Report generator: timeline formatting

    [minutes = int(timestamp // 60)], [seconds = int(timestamp % 60)] and
    [f"{minutes:02d}:{seconds:02d}"], with Python's floor division and
    modulo and [int]'s truncation toward zero. *)

Definition py_floordiv (x y : Q) : Z := Qfloor (x / y).

Definition py_mod (x y : Q) : Q := x - y * inject_Z (Qfloor (x / y)).

Definition py_int (x : Q) : Z :=
  if Qle_bool 0 x then Qfloor x else (- Qfloor (- x))%Z.

(** [f"{z:02d}"]: zero-padded to width two; a sign already makes two. *)
Definition pad2 (z : Z) : string :=
  if ((0 <=? z) && (z <? 10))%Z then "0" ++ Z_to_string z else Z_to_string z.

Definition time_parts (timestamp : Q) : Z * Z :=
  (py_int (inject_Z (py_floordiv timestamp 60)), py_int (py_mod timestamp 60)).

Definition time_str (timestamp : Q) : string :=
  let '(minutes, seconds) := time_parts timestamp in
  pad2 minutes ++ ":" ++ pad2 seconds.

(** ** Report generator: [sorted(xs, key=lambda x: float(x.get('timestamp', 0)))]

    Python's [sorted] is stable, and a stable sort has one possible output,
    so it is written here as a stable insertion sort.  The keys are computed
    first; a key that [float] rejects raises (and [_gather_session_data]
    returns [None]). *)

Fixpoint insert_by_key {A} (k : Q) (x : A) (l : list (Q * A)) : list (Q * A) :=
  match l with
  | [] => [(k, x)]
  | (k', y) :: l' => if Qltb k k' then (k, x) :: l else (k', y) :: insert_by_key k x l'
  end.

Definition sort_by_key {A} (kvs : list (Q * A)) : list (Q * A) :=
  fold_left (fun acc '(k, x) => insert_by_key k x acc) kvs [].

Definition sorted_by_timestamp {A} (timestamp_of : A -> option raw_time) (l : list A)
    : option (list A) :=
  kvs <- map_opt (fun x => k <- parse_time (timestamp_of x);; Some (k, x)) l;;
  Some (map snd (sort_by_key kvs)).

(** ** Report generator: [generate_report]

    [report_data] is what [_gather_session_data] returned ([None] when the
    session is missing or gathering raised); [render_html] is
    [_generate_html_report] ([None] when it raises); [put_object] and
    [presign] are the S3 calls ([None] when they raise).  The result pairs the
    objects written to S3 with the returned dict. *)

Inductive report_error :=
  | ErrNotFound
  | ErrUnsupported (fmt : string)
  | ErrException.

Inductive report_result :=
  | ReportOk (report_key download_url fmt : string)
  | ReportErr (e : report_error).

Definition generate_report {D} (report_data : option D)
    (render_html : D -> option string) (dumps_json : D -> string)
    (put_object : string -> string -> string -> option unit)
    (presign : string -> option string) (session_id fmt : string)
    : list (string * string * string) * report_result :=
  match report_data with
  | None => ([], ReportErr ErrNotFound)
  | Some data =>
      let rendered :=
        if String.eqb fmt "html" then
          match render_html data with
          | Some c => Some (Some (c, "text/html", "html"))
          | None => None
          end
        else if String.eqb fmt "json" then
          Some (Some (dumps_json data, "application/json", "json"))
        else Some None in
      match rendered with
      | None => ([], ReportErr ErrException)
      | Some None => ([], ReportErr (ErrUnsupported fmt))
      | Some (Some (content, content_type, ext)) =>
          let key := "cme-reports/" ++ session_id ++ "/report." ++ ext in
          match put_object key content content_type with
          | None => ([], ReportErr ErrException)
          | Some _ =>
              match presign key with
              | None => ([(key, content, content_type)], ReportErr ErrException)
              | Some url => ([(key, content, content_type)], ReportOk key url fmt)
              end
          end
      end
  end.

(** ** Views used by the further properties *)

(** The tone flags: neither an interruption nor the overall sentiment flag. *)
Definition is_tone_flag (f : flag) : bool :=
  negb (is_interruption f) && negb (is_negative_sentiment f).

(** Order of keyed records, and a record whose key is its parsed
    timestamp. *)
Definition key_le {A} (p q : Q * A) : Prop := fst p <= fst q.

Definition key_ok {A} (timestamp_of : A -> option raw_time) (p : Q * A) : Prop :=
  parse_time (timestamp_of (snd p)) = Some (fst p).

(** [float(a['timestamp']) <= float(b['timestamp'])] *)
Definition ts_le {A} (timestamp_of : A -> option raw_time) (a b : A) : Prop :=
  exists ka kb, parse_time (timestamp_of a) = Some ka /\
                parse_time (timestamp_of b) = Some kb /\ ka <= kb.

Definition key_is {A} (q : Q) (p : Q * A) : bool := Qeq_bool (fst p) q.

(** [float(x.get('timestamp', 0)) == q] *)
Definition has_timestamp {A} (q : Q) (timestamp_of : A -> option raw_time) (x : A) : bool :=
  match parse_time (timestamp_of x) with Some k => Qeq_bool k q | None => false end.

(** A declared step as scanned, with its raw timestamp field. *)
Definition step_record : Type := declared_step * option raw_time.

(** A sentiment service that rates every text but ["hello"] as negative. *)
Definition negative_service (text : string) : option sentiment_response :=
  if String.eqb text "hello" then None
  else Some {| sentiment := Some "NEGATIVE"; sentiment_score := [("Negative", 9 # 10)] |}.

(** * Properties *)

(** ** Generic facts *)

Lemma Qmin_cases x y : (Qmin x y = x /\ x <= y) \/ (Qmin x y = y /\ y < x).
Proof.
  unfold Qmin; destruct (Qle_bool x y) eqn:E.
  - left; split; [reflexivity | now apply Qle_bool_iff].
  - right; split; [reflexivity |].
    apply Qnot_le_lt; intro H; apply Qle_bool_iff in H; congruence.
Qed.

Lemma length_filter_pos {A} (f : A -> bool) (l : list A) (x : A) :
  In x l -> f x = true -> (0 < length (filter f l))%nat.
Proof.
  intros Hin Hf.
  assert (Hx : In x (filter f l)) by (apply filter_In; auto).
  destruct (filter f l); [contradiction | simpl; lia].
Qed.

Lemma length_filter_zero {A} (f : A -> bool) (l : list A) :
  (forall x, In x l -> f x = false) -> length (filter f l) = 0%nat.
Proof.
  intros Hf; induction l as [| a l IH]; simpl; [reflexivity |].
  rewrite (Hf a (or_introl eq_refl)); apply IH; intros x Hx; apply Hf; now right.
Qed.

Lemma NoDup_fst_functional {K V} (l : list (K * V)) k v1 v2 :
  NoDup (map fst l) -> In (k, v1) l -> In (k, v2) l -> v1 = v2.
Proof.
  induction l as [| [k' v'] l IH]; simpl; [contradiction |].
  intros Hnd H1 H2; inversion Hnd as [| ? ? Hnotin Hnd']; subst.
  destruct H1 as [E1 | H1]; destruct H2 as [E2 | H2].
  - inversion E1; inversion E2; subst; reflexivity.
  - inversion E1; subst; exfalso; apply Hnotin.
    apply (in_map fst) in H2; exact H2.
  - inversion E2; subst; exfalso; apply Hnotin.
    apply (in_map fst) in H1; exact H1.
  - eauto.
Qed.

Lemma take_length n s : String.length (take n s) = Nat.min n (String.length s).
Proof.
  unfold take; revert n; induction s as [| c s IH]; intros [| n]; simpl; auto.
Qed.

Lemma take_prefix n s : prefix (take n s) s = true.
Proof.
  unfold take; revert n; induction s as [| c s IH]; intros [| n]; simpl; auto.
  destruct (ascii_dec c c) as [_ | NE]; [apply IH | contradiction].
Qed.

(** ** The classifier *)

Lemma in_analyze_text_for_tests tax text ts c :
  In c (analyze_text_for_tests tax text ts) ->
  exists test_label cfg,
    In (test_label, cfg) tax /\
    (1 # 2) <= category_score cfg (lower text) /\
    c = {| c_label := test_label; c_timestamp := ts;
           c_confidence := Qmin (category_score cfg (lower text)) 1;
           c_matched_text := take 200 text |}.
Proof.
  unfold analyze_text_for_tests; intro H; apply in_flat_map in H.
  destruct H as [[l cfg] [Hin Hc]].
  destruct (Qle_bool (1 # 2) (category_score cfg (lower text))) eqn:E;
    [| contradiction].
  destruct Hc as [Hc | []]; subst.
  exists l, cfg; repeat split; auto; now apply Qle_bool_iff.
Qed.

Lemma keyword_term_nonneg cfg tl :
  0 <= (if (0 <? keyword_matches cfg tl)%nat
        then 0 + (3 # 10) * Qmin (inject_Z (Z.of_nat (keyword_matches cfg tl))
                                  / inject_Z (Z.of_nat (length (keywords cfg)))) 1
        else 0).
Proof.
  destruct (0 <? keyword_matches cfg tl)%nat; [| apply Qle_refl].
  set (x := inject_Z _ / inject_Z _).
  assert (Hx : 0 <= x).
  { unfold x, Qdiv; apply Qmult_le_0_compat.
    - unfold Qle; simpl; lia.
    - apply Qinv_le_0_compat; unfold Qle; simpl; lia. }
  destruct (Qmin_cases x 1) as [[-> _] | [-> _]]; lra.
Qed.

(** The structural term is a flat [0.7], whatever else the text holds. *)
Lemma category_score_structural cfg tl :
  (0 < pattern_matches cfg tl)%nat -> (7 # 10) <= category_score cfg tl.
Proof.
  intro Hp; unfold category_score.
  pose proof (keyword_term_nonneg cfg tl) as H0.
  apply Nat.ltb_lt in Hp; rewrite Hp.
  destruct (has_declaration tl && Qltb 0 _); lra.
Qed.

Lemma category_score_no_signal cfg tl :
  keyword_matches cfg tl = 0%nat -> pattern_matches cfg tl = 0%nat ->
  category_score cfg tl = 0.
Proof.
  intros Hk Hp; unfold category_score; rewrite Hk, Hp; cbn.
  now rewrite andb_false_r.
Qed.

Lemma TEST_TAXONOMY_labels_unique : NoDup (map fst TEST_TAXONOMY).
Proof.
  cbn; repeat constructor; cbn; intro H; repeat destruct H as [H | H];
    try discriminate H; exact H.
Qed.

(** C2: for every category of the taxonomy, a text matching at least one of
    its pattern rules (on the lowercased text, [re.IGNORECASE]) yields a
    candidate for that category at the given timestamp: the flat [0.7]
    structural score alone clears the [0.5] threshold. *)
Theorem pattern_match_emits_candidate tax test_label cfg text ts
    (Hin : In (test_label, cfg) tax)
    (Hpat : exists p, In p (patterns cfg) /\ re_search true p (lower text) = true) :
  exists c, In c (analyze_text_for_tests tax text ts) /\
            c_label c = test_label /\ c_timestamp c = ts.
Proof.
  destruct Hpat as [p [Hp Hm]].
  assert (Hs : (7 # 10) <= category_score cfg (lower text)).
  { apply category_score_structural; unfold pattern_matches.
    exact (length_filter_pos _ _ p Hp Hm). }
  exists {| c_label := test_label; c_timestamp := ts;
            c_confidence := Qmin (category_score cfg (lower text)) 1;
            c_matched_text := take 200 text |}.
  split; [| split; reflexivity].
  unfold analyze_text_for_tests; apply in_flat_map.
  exists (test_label, cfg); split; [exact Hin |]; cbv beta iota.
  replace (Qle_bool (1 # 2) (category_score cfg (lower text))) with true
    by (symmetry; apply Qle_bool_iff; lra).
  left; reflexivity.
Qed.

Lemma pattern_match_emits_candidate_witness :
  In ("straight_leg_raise", {|
     keywords := ["straight leg"; "slr"; "leg raise"; "lasegue"; "raise your leg"];
     patterns := [
       seqs [lit "straight"; ws1; lit "leg"; ws1; words ["raise"; "test"]];
       seqs [lit "slr"; ws1; lit "test"];
       seqs [lit "lasegue"; RStar (RClass [CChar apos; CChar "s"]); ws1;
             words ["test"; "sign"]] ] |}) TEST_TAXONOMY /\
  exists c, In c (analyze_text_for_tests TEST_TAXONOMY slr_text 42) /\
            c_label c = "straight_leg_raise" /\ c_timestamp c = 42.
Proof.
  split; [cbn; tauto |].
  apply (pattern_match_emits_candidate _ _
           (snd (nth 2 TEST_TAXONOMY ("", {| keywords := []; patterns := [] |})))).
  - cbn; tauto.
  - exists slr_pattern; split; [cbn; tauto | vm_compute; reflexivity].
Defined.

(** C3: a category none of whose keywords occurs in the lowercased text and
    none of whose pattern rules matches it gets score [0] (the declaration
    bonus needs a positive running score) and is never emitted, whatever
    declaration phrases the text contains. *)
Theorem no_signal_never_emitted test_label cfg text ts
    (Hin : In (test_label, cfg) TEST_TAXONOMY)
    (Hkw : forall kw, In kw (keywords cfg) -> str_contains kw (lower text) = false)
    (Hpat : forall p, In p (patterns cfg) -> re_search true p (lower text) = false) :
  category_score cfg (lower text) = 0 /\
  forall c, In c (analyze_text_for_tests TEST_TAXONOMY text ts) ->
            c_label c <> test_label.
Proof.
  assert (H0 : category_score cfg (lower text) = 0).
  { apply category_score_no_signal;
      [apply length_filter_zero; exact Hkw | apply length_filter_zero; exact Hpat]. }
  split; [exact H0 |].
  intros c Hc Hl.
  apply in_analyze_text_for_tests in Hc.
  destruct Hc as [l' [cfg' [Hin' [Hs ->]]]]; cbn in Hl; subst l'.
  rewrite (NoDup_fst_functional _ _ _ _ TEST_TAXONOMY_labels_unique Hin' Hin) in Hs.
  rewrite H0 in Hs; unfold Qle in Hs; simpl in Hs; lia.
Qed.

Lemma no_signal_never_emitted_witness :
  category_score {|
     keywords := ["gait"; "walking"; "ambulation"; "mobility"; "walk";
                  "heel-to-toe"; "tandem"];
     patterns := [
       seqs [lit "gait"; ws1; words ["analysis"; "assessment"; "test"]];
       seqs [words ["walk"; "walking"]; ws1; words ["test"; "assessment"]];
       seqs [lit "heel"; RClass [CChar "-"; CSpace]; lit "to";
             RClass [CChar "-"; CSpace]; lit "toe"];
       seqs [lit "tandem"; ws1; words ["walk"; "gait"]] ] |} (lower slr_text) = 0 /\
  forall c, In c (analyze_text_for_tests TEST_TAXONOMY slr_text 42) ->
            c_label c <> "gait".
Proof.
  apply no_signal_never_emitted.
  - cbn; tauto.
  - intros kw Hkw; cbn in Hkw; repeat destruct Hkw as [<- | Hkw];
      [vm_compute; reflexivity .. | contradiction].
  - intros p Hp; cbn in Hp; repeat destruct Hp as [<- | Hp];
      [vm_compute; reflexivity .. | contradiction].
Defined.

(** C4: every emitted candidate has confidence in [[0, 1]] (the sum is
    clamped with [min(confidence, 1.0)]), and its matched text is the
    original, non-lowercased text cut to its first 200 characters. *)
Theorem candidate_confidence_bounded tax text ts c
    (Hc : In c (analyze_text_for_tests tax text ts)) :
  0 <= c_confidence c <= 1 /\
  c_matched_text c = take 200 text /\
  String.length (c_matched_text c) = Nat.min 200 (String.length text) /\
  prefix (c_matched_text c) text = true.
Proof.
  apply in_analyze_text_for_tests in Hc.
  destruct Hc as [l [cfg [_ [Hs ->]]]]; cbn.
  split; [| split; [reflexivity | split; [apply take_length | apply take_prefix]]].
  destruct (Qmin_cases (category_score cfg (lower text)) 1) as [[-> H] | [-> H]];
    lra.
Qed.

Lemma candidate_confidence_bounded_witness :
  exists c, In c (analyze_text_for_tests TEST_TAXONOMY slr_text 42) /\
  (0 <= c_confidence c <= 1 /\
   c_matched_text c = take 200 slr_text /\
   String.length (c_matched_text c) = Nat.min 200 (String.length slr_text) /\
   prefix (c_matched_text c) slr_text = true).
Proof.
  eexists; split.
  - vm_compute; left; reflexivity.
  - apply (candidate_confidence_bounded TEST_TAXONOMY slr_text 42);
    vm_compute; left; reflexivity.
Defined.

(** C9: on ["Now let's check your straight leg raise, please lie back"] at
    [42.0] the classifier emits [straight_leg_raise] with confidence at least
    [0.5]; the keyword ["straight leg"], the rule
    [straight\s+leg\s+(?:raise|test)] and the phrase ["let's"] all match. *)
Theorem slr_scenario :
  (exists c, In c (analyze_text_for_tests TEST_TAXONOMY slr_text 42) /\
             c_label c = "straight_leg_raise" /\ c_timestamp c = 42 /\
             (1 # 2) <= c_confidence c) /\
  (exists cfg, In ("straight_leg_raise", cfg) TEST_TAXONOMY /\
               In "straight leg" (keywords cfg) /\ In slr_pattern (patterns cfg)) /\
  str_contains "straight leg" (lower slr_text) = true /\
  re_search true slr_pattern (lower slr_text) = true /\
  In "let's" declaration_phrases /\
  str_contains "let's" (lower slr_text) = true.
Proof.
  split; [| split; [| split; [| split; [| split]]]].
  - eexists; split; [vm_compute; left; reflexivity |].
    split; [reflexivity | split; [reflexivity |]].
    apply Qle_bool_iff; vm_compute; reflexivity.
  - eexists; split; [cbn; tauto | cbn; tauto].
  - vm_compute; reflexivity.
  - vm_compute; reflexivity.
  - cbn; tauto.
  - vm_compute; reflexivity.
Qed.

(** ** Segment text extraction *)

Lemma parse_time_ok f : time_ok f = true -> exists q, parse_time f = Some q.
Proof. destruct f as [[q |] |]; simpl; eauto; discriminate. Qed.

Lemma collect_words_spec ss se its :
  forallb item_wf its = true ->
  collect_words ss se its = Some (map item_text (filter (in_window ss se) its)).
Proof.
  induction its as [| it its IH]; simpl; [reflexivity |].
  intro Hwf; apply andb_true_iff in Hwf as [Hit Hrest].
  specialize (IH Hrest).
  unfold item_wf, in_window, is_pronunciation in *.
  destruct (opt_str_eqb (item_type it) (Some "pronunciation")); simpl in *;
    [| exact IH].
  apply andb_true_iff in Hit as [Ht Ha].
  destruct (parse_time_ok _ Ht) as [q Hq].
  unfold item_time; rewrite Hq; simpl.
  destruct (Qle_bool ss q && Qle_bool q se); simpl; [| exact IH].
  unfold item_text; destruct (item_content it) as [c |] eqn:Ec.
  - rewrite IH; reflexivity.
  - unfold item_content in Ec; destruct (alternatives it) as [[| a l] |];
      discriminate.
Qed.

Lemma get_segment_text_wf seg its :
  segment_wf seg = true -> forallb item_wf its = true ->
  get_segment_text seg its =
  Some (spec_segment_text (seg_time seg)
          (match parse_time (seg_end seg) with Some q => q | None => 0 end) its).
Proof.
  intros Hs Hi; apply andb_true_iff in Hs as [H1 H2].
  destruct (parse_time_ok _ H1) as [a Ha]; destruct (parse_time_ok _ H2) as [b Hb].
  unfold get_segment_text, seg_time; rewrite Ha, Hb; simpl.
  rewrite collect_words_spec by exact Hi; reflexivity.
Qed.

(** ** Flag kinds *)

Lemma filter_all_false {A} (f : A -> bool) (l : list A) :
  (forall x, In x l -> f x = false) -> filter f l = [].
Proof.
  intros Hf; induction l as [| a l IH]; simpl; [reflexivity |].
  rewrite (Hf a (or_introl eq_refl)); apply IH; intros x Hx; apply Hf; now right.
Qed.

Lemma analyze_tone_kinds text ts f :
  In f (analyze_tone text ts) ->
  flag_kind_ok f /\ is_interruption f = false /\ is_negative_sentiment f = false.
Proof.
  unfold analyze_tone, flag_kind_ok, is_interruption, is_negative_sentiment.
  intro H; repeat rewrite in_app_iff in H.
  destruct H as [H | [H | H]]; apply in_map_iff in H; destruct H as [x [<- _]];
    cbn; intuition.
Qed.

Lemma analyze_sentiment_kinds o text segs f :
  In f (analyze_sentiment_comprehend o text segs) ->
  flag_type f = "negative_sentiment" /\ severity f = "medium".
Proof.
  unfold analyze_sentiment_comprehend.
  destruct (o (take 5000 text)) as [r |]; [| contradiction].
  destruct (_ && _); [| contradiction].
  destruct (match segs with [] => _ | _ => _ end); [| contradiction].
  intros [<- | []]; cbn; auto.
Qed.

Lemma demeanor_loop_kinds examiner its segs count last fl :
  demeanor_loop examiner its segs count last = Some fl ->
  forall f, In f fl -> flag_kind_ok f /\ is_negative_sentiment f = false.
Proof.
  revert count last fl; induction segs as [| seg rest IH];
    intros count last fl H f Hf; simpl in H.
  - inversion H; subst; contradiction.
  - destruct (parse_time (seg_start seg)) as [st |]; [| discriminate]; simpl in H.
    destruct (get_segment_text seg its) as [txt |]; [| discriminate]; simpl in H.
    destruct (opt_str_eqb (speaker_label seg) (Some examiner)); [| eauto].
    remember (analyze_tone txt st) as tf eqn:Etf.
    destruct (opt_str_eqb last (Some examiner)); cbn in H;
      destruct (demeanor_loop examiner its rest _ _) as [more |] eqn:Em;
      try discriminate; inversion H; subst;
      repeat rewrite in_app_iff in Hf.
    + destruct Hf as [Hf | [Hf | Hf]].
      * destruct count as [| c]; cbn in Hf; [contradiction |].
        destruct Hf as [<- | []]; cbn; unfold flag_kind_ok; cbn; auto.
      * apply analyze_tone_kinds in Hf; tauto.
      * eauto.
    + destruct Hf as [Hf | Hf].
      * apply analyze_tone_kinds in Hf; tauto.
      * eauto.
Qed.

(** ** Whole-pass failure *)

Definition segment_fails (s : segment) (its : list item) : Prop :=
  parse_time (seg_start s) = None \/ get_segment_text s its = None.

Lemma detect_loop_fails tax its segs s :
  In s segs -> segment_fails s its -> detect_loop tax its segs = None.
Proof.
  induction segs as [| s' rest IH]; [contradiction |].
  intros [-> | Hin] Hf; simpl.
  - destruct Hf as [Hf | Hf]; [rewrite Hf; reflexivity |].
    destruct (parse_time (seg_start s)); simpl; [| reflexivity].
    destruct (parse_time (seg_end s)); simpl; [| reflexivity].
    rewrite Hf; reflexivity.
  - destruct (parse_time (seg_start s')); simpl; [| reflexivity].
    destruct (parse_time (seg_end s')); simpl; [| reflexivity].
    destruct (get_segment_text s' its); simpl; [| reflexivity].
    rewrite IH by assumption; reflexivity.
Qed.

Lemma demeanor_loop_fails examiner its segs s :
  In s segs -> segment_fails s its ->
  forall count last, demeanor_loop examiner its segs count last = None.
Proof.
  induction segs as [| s' rest IH]; [contradiction |].
  intros [-> | Hin] Hf count last; simpl.
  - destruct Hf as [Hf | Hf]; [rewrite Hf; reflexivity |].
    destruct (parse_time (seg_start s)); simpl; [| reflexivity].
    rewrite Hf; reflexivity.
  - destruct (parse_time (seg_start s')); simpl; [| reflexivity].
    destruct (get_segment_text s' its); simpl; [| reflexivity].
    destruct (opt_str_eqb (speaker_label s') (Some examiner)); [| auto].
    destruct (opt_str_eqb last (Some examiner)); cbn; rewrite IH by assumption;
      reflexivity.
Qed.

(** ** Interruption detection *)

(** Loop invariant: [p1] says the previous segment was the examiner's, and
    after an examiner segment [consecutive_count >= 1] says the one before it
    was too. *)
Lemma demeanor_loop_interruptions examiner its segs :
  forall count last p2 p1 fl,
  opt_str_eqb last (Some examiner) = p1 ->
  (p1 = true -> (1 <=? count)%nat = p2) ->
  demeanor_loop examiner its segs count last = Some fl ->
  map (fun f => (f_timestamp f, severity f)) (filter is_interruption fl) =
  map (fun s => (seg_time s, "medium")) (third_in_run examiner p2 p1 segs).
Proof.
  induction segs as [| seg rest IH]; intros count last p2 p1 fl Hl Hc H;
    simpl in H.
  - inversion H; reflexivity.
  - destruct (parse_time (seg_start seg)) as [st |] eqn:Est; [| discriminate];
      simpl in H.
    destruct (get_segment_text seg its) as [txt |]; [| discriminate]; simpl in H.
    assert (Htone : filter is_interruption (analyze_tone txt st) = []).
    { apply filter_all_false; intros x Hx; apply analyze_tone_kinds in Hx; tauto. }
    simpl third_in_run; unfold is_examiner.
    destruct (opt_str_eqb (speaker_label seg) (Some examiner)) eqn:Ee.
    + remember (analyze_tone txt st) as tf eqn:Etf.
      destruct p1; rewrite Hl in H; cbn in H.
      * destruct (demeanor_loop examiner its rest (S count) (speaker_label seg))
          as [more |] eqn:Em; [| discriminate].
        inversion H; subst fl tf.
        rewrite !filter_app, !map_app, Htone.
        rewrite (IH (S count) (speaker_label seg) true true more Ee
                   (fun _ => eq_refl) Em).
        specialize (Hc eq_refl); subst p2.
        destruct count as [| c]; cbn; [reflexivity |].
        unfold seg_time; rewrite Est; reflexivity.
      * destruct (demeanor_loop examiner its rest 0 (speaker_label seg))
          as [more |] eqn:Em; [| discriminate].
        inversion H; subst fl tf.
        rewrite !filter_app, !map_app, Htone.
        rewrite (IH 0%nat (speaker_label seg) false true more Ee
                   (fun _ => eq_refl) Em).
        rewrite andb_false_r; reflexivity.
    + rewrite andb_false_r; simpl.
      apply (IH count (speaker_label seg) p1 false fl Ee
               (fun E => ltac:(discriminate E)) H).
Qed.

Lemma demeanor_loop_wf examiner its segs :
  forallb segment_wf segs = true -> forallb item_wf its = true ->
  forall count last, exists fl, demeanor_loop examiner its segs count last = Some fl.
Proof.
  induction segs as [| seg rest IH]; intros Hs Hi count last; simpl; [eauto |].
  simpl in Hs; apply andb_true_iff in Hs as [Hseg Hrest].
  pose proof (get_segment_text_wf seg its Hseg Hi) as Ht.
  apply andb_true_iff in Hseg as [H1 _].
  destruct (parse_time_ok _ H1) as [st Hst].
  rewrite Hst, Ht; simpl.
  destruct (opt_str_eqb (speaker_label seg) (Some examiner)); [| apply IH; auto].
  destruct (opt_str_eqb last (Some examiner)); cbn.
  - destruct (IH Hrest Hi (S count) (speaker_label seg)) as [fl Hfl].
    rewrite Hfl; simpl; eauto.
  - destruct (IH Hrest Hi 0%nat (speaker_label seg)) as [fl Hfl].
    rewrite Hfl; simpl; eauto.
Qed.

Lemma In_firstn {A} n (l : list A) x : In x (firstn n l) -> In x l.
Proof.
  intro H; rewrite <- (firstn_skipn n l); apply in_or_app; now left.
Qed.

Lemma map_opt_some {A B} (f : A -> option B) (l : list A) :
  (forall a, In a l -> exists b, f a = Some b) -> exists bs, map_opt f l = Some bs.
Proof.
  induction l as [| a l IH]; intros H; simpl; [eauto |].
  destruct (H a (or_introl eq_refl)) as [b Hb]; rewrite Hb; simpl.
  destruct IH as [bs Hbs]; [intros x Hx; apply H; now right |].
  rewrite Hbs; simpl; eauto.
Qed.

Lemma examiner_texts_wf examiner t :
  transcript_wf t = true ->
  exists texts, map_opt (fun s => get_segment_text s (items t))
    (firstn 10 (filter (fun s => opt_str_eqb (speaker_label s) (Some examiner))
                       (segments t))) = Some texts.
Proof.
  unfold transcript_wf; intro Hwf; apply andb_true_iff in Hwf as [Hi Hs].
  apply map_opt_some; intros s Hin.
  apply In_firstn, filter_In in Hin as [Hin _].
  rewrite forallb_forall in Hs.
  rewrite (get_segment_text_wf s _ (Hs s Hin) Hi); eauto.
Qed.

(** The analyzer with the sentiment oracle's flag removed. *)
Lemma demeanor_without_sentiment o examiner t :
  filter (fun f => negb (is_negative_sentiment f)) (analyze_examiner_demeanor o examiner t)
  = match demeanor_loop examiner (items t) (segments t) 0 None with
    | Some fl =>
        match map_opt (fun s => get_segment_text s (items t))
                (firstn 10 (filter (fun s => opt_str_eqb (speaker_label s)
                                                         (Some examiner))
                                   (segments t))) with
        | Some _ => filter (fun f => negb (is_negative_sentiment f)) fl
        | None => []
        end
    | None => []
    end.
Proof.
  unfold analyze_examiner_demeanor, demeanor_pass.
  destruct (demeanor_loop examiner (items t) (segments t) 0 None) as [fl |];
    simpl; [| reflexivity].
  destruct (map_opt _ _) as [texts |]; simpl; [| reflexivity].
  rewrite filter_app.
  destruct (String.eqb (join_space texts) ""); simpl; [apply app_nil_r |].
  rewrite (filter_all_false _ (analyze_sentiment_comprehend _ _ _));
    [apply app_nil_r |].
  intros x Hx; apply analyze_sentiment_kinds in Hx as [Hx _].
  unfold is_negative_sentiment; rewrite Hx; reflexivity.
Qed.

(** ** Claims on the transcript passes *)

(** C1 (as the code does it): one segment that cannot be analyzed (its
    [start_time] rejected by [float], or an item it reads malformed) makes
    both [detect_declared_tests] and [analyze_examiner_demeanor] return [[]]:
    the exception is caught once for the whole pass, so the events and flags
    of every other segment are discarded. *)
Theorem segment_failure_empties_pass tax o examiner t s
    (Hin : In s (segments t)) (Hfail : segment_fails s (items t)) :
  detect_declared_tests tax t = [] /\ analyze_examiner_demeanor o examiner t = [].
Proof.
  unfold detect_declared_tests, analyze_examiner_demeanor, demeanor_pass.
  rewrite (detect_loop_fails tax _ _ s Hin Hfail).
  rewrite (demeanor_loop_fails examiner _ _ s Hin Hfail 0 None).
  split; reflexivity.
Qed.

Lemma segment_failure_empties_pass_witness :
  In malformed_segment (segments bad_transcript) /\
  segment_fails malformed_segment (items bad_transcript) /\
  (detect_declared_tests TEST_TAXONOMY bad_transcript = [] /\
   analyze_examiner_demeanor failing_oracle "speaker_0" bad_transcript = []).
Proof.
  assert (Hin : In malformed_segment (segments bad_transcript))
    by (cbn; tauto).
  assert (Hf : segment_fails malformed_segment (items bad_transcript))
    by (left; reflexivity).
  split; [exact Hin | split; [exact Hf |]].
  exact (segment_failure_empties_pass TEST_TAXONOMY failing_oracle "speaker_0"
           bad_transcript malformed_segment Hin Hf).
Defined.

(** C1 as stated fails: the examiner segment alone yields a declared test and
    a demeanor flag, but followed by a segment with a malformed [start_time]
    both passes return nothing. *)
Lemma segment_failure_discards_other_segments :
  detect_declared_tests TEST_TAXONOMY good_transcript <> [] /\
  detect_declared_tests TEST_TAXONOMY bad_transcript = [] /\
  analyze_examiner_demeanor failing_oracle "speaker_0" good_transcript <> [] /\
  analyze_examiner_demeanor failing_oracle "speaker_0" bad_transcript = [].
Proof.
  split; [vm_compute; discriminate |].
  split; [vm_compute; reflexivity |].
  split; [vm_compute; discriminate | vm_compute; reflexivity].
Qed.

(** C5: on a well-formed transcript, the interruption flags are exactly one
    per segment that is the third or a later one of a run of consecutive
    examiner segments, in order, each of severity [medium] and timestamped
    at that segment's start. *)
Theorem interruption_flags_third_in_run o examiner t
    (Hwf : transcript_wf t = true) :
  map (fun f => (f_timestamp f, severity f))
      (filter is_interruption (analyze_examiner_demeanor o examiner t)) =
  map (fun s => (seg_time s, "medium")) (third_in_run examiner false false (segments t)).
Proof.
  pose proof Hwf as Hwf'.
  unfold transcript_wf in Hwf'; apply andb_true_iff in Hwf' as [Hi Hs].
  destruct (demeanor_loop_wf examiner (items t) (segments t) Hs Hi 0 None)
    as [fl Hfl].
  destruct (examiner_texts_wf examiner t Hwf) as [texts Htexts].
  unfold analyze_examiner_demeanor, demeanor_pass; cbv zeta.
  rewrite Hfl; cbn [bind]; rewrite Htexts; cbn [bind].
  rewrite filter_app, map_app.
  rewrite (demeanor_loop_interruptions examiner (items t) (segments t) 0 None
             false false fl eq_refl (fun E => ltac:(discriminate E)) Hfl).
  destruct (String.eqb (join_space texts) ""); simpl; [apply app_nil_r |].
  rewrite (filter_all_false _ (analyze_sentiment_comprehend _ _ _));
    [apply app_nil_r |].
  intros x Hx; apply analyze_sentiment_kinds in Hx as [Hx _].
  unfold is_interruption; rewrite Hx; reflexivity.
Qed.

Lemma interruption_flags_third_in_run_witness :
  let t := {| items := exam_items;
              segments := [examiner_segment; examiner_segment; examiner_segment] |} in
  transcript_wf t = true /\
  map (fun f => (f_timestamp f, severity f))
      (filter is_interruption (analyze_examiner_demeanor failing_oracle "speaker_0" t)) =
  map (fun s => (seg_time s, "medium")) (third_in_run "speaker_0" false false (segments t)).
Proof.
  intro t.
  assert (Hwf : transcript_wf t = true) by (vm_compute; reflexivity).
  split; [exact Hwf | exact (interruption_flags_third_in_run failing_oracle "speaker_0" t Hwf)].
Defined.

(** C10: every demeanor flag has severity [medium] or [high]: interruption,
    dismissive and negative_sentiment flags are [medium], negative_tone and
    aggressive flags are [high]. *)
Theorem demeanor_flag_severity o examiner t f
    (Hf : In f (analyze_examiner_demeanor o examiner t)) :
  (severity f = "medium" \/ severity f = "high") /\ flag_kind_ok f.
Proof.
  assert (Hk : flag_kind_ok f).
  { unfold analyze_examiner_demeanor, demeanor_pass in Hf; cbv zeta in Hf.
    destruct (demeanor_loop examiner (items t) (segments t) 0 None) as [fl |] eqn:El;
      [| contradiction]; simpl in Hf.
    destruct (map_opt _ _) as [texts |]; [| contradiction]; simpl in Hf.
    apply in_app_iff in Hf as [Hf | Hf].
    - exact (proj1 (demeanor_loop_kinds _ _ _ _ _ _ El f Hf)).
    - destruct (String.eqb (join_space texts) ""); [contradiction |].
      apply analyze_sentiment_kinds in Hf; unfold flag_kind_ok; tauto. }
  split; [| exact Hk].
  unfold flag_kind_ok in Hk; intuition.
Qed.

Lemma demeanor_flag_severity_witness :
  exists f, In f (analyze_examiner_demeanor failing_oracle "speaker_0" good_transcript) /\
  ((severity f = "medium" \/ severity f = "high") /\ flag_kind_ok f).
Proof.
  eexists.
  assert (Hin : In {| flag_type := "negative_tone"; f_timestamp := 0;
                      transcript_excerpt :=
                        "Let's do the straight leg raise that's ridiculous";
                      severity := "high";
                      description := "Negative language detected: " ++ dq
                                     ++ "that's ridiculous" ++ dq;
                      sentiment_scores := None |}
                 (analyze_examiner_demeanor failing_oracle "speaker_0" good_transcript))
    by (vm_compute; left; reflexivity).
  split; [exact Hin | exact (demeanor_flag_severity _ _ _ _ Hin)].
Defined.

(** C8: the classification pass is a function of its transcript: whatever
    the sentiment oracle answers and whatever the clock says, two runs give
    the same declared tests and, once the oracle's negative_sentiment flag is
    set aside, the same demeanor flags (same events, order and fields). *)
Theorem process_deterministic o1 o2 now1 now2 sid t :
  declared_tests (process_transcript_for_cme_analysis o1 now1 sid t) =
  declared_tests (process_transcript_for_cme_analysis o2 now2 sid t) /\
  filter (fun f => negb (is_negative_sentiment f))
    (demeanor_flags (process_transcript_for_cme_analysis o1 now1 sid t)) =
  filter (fun f => negb (is_negative_sentiment f))
    (demeanor_flags (process_transcript_for_cme_analysis o2 now2 sid t)).
Proof.
  split; [reflexivity |]; cbn [demeanor_flags process_transcript_for_cme_analysis].
  rewrite !demeanor_without_sentiment; reflexivity.
Qed.

(** C7: for a window [[ss, se]] and well-formed items, the extractor returns
    the space-joined texts of exactly the pronunciation items whose start
    time [t] has [ss <= t <= se], in item order; punctuation is left out, and
    an empty item list or a window holding no word gives [""]. *)
Theorem segment_text_window seg its ss se
    (Hs : parse_time (seg_start seg) = Some ss)
    (He : parse_time (seg_end seg) = Some se)
    (Hwf : forallb item_wf its = true) :
  get_segment_text seg its = Some (spec_segment_text ss se its) /\
  ((forall it, In it its -> in_window ss se it = false) ->
   get_segment_text seg its = Some "").
Proof.
  unfold get_segment_text; rewrite Hs, He; cbn [bind].
  rewrite collect_words_spec by exact Hwf.
  split; [reflexivity |].
  intro Hnone; rewrite (filter_all_false _ _ Hnone); reflexivity.
Qed.

Lemma segment_text_window_witness :
  parse_time (seg_start examiner_segment) = Some 0 /\
  parse_time (seg_end examiner_segment) = Some 10 /\
  forallb item_wf exam_items = true /\
  (get_segment_text examiner_segment exam_items =
     Some (spec_segment_text 0 10 exam_items) /\
   ((forall it, In it exam_items -> in_window 0 10 it = false) ->
    get_segment_text examiner_segment exam_items = Some "")).
Proof.
  assert (H1 : parse_time (seg_start examiner_segment) = Some 0) by reflexivity.
  assert (H2 : parse_time (seg_end examiner_segment) = Some 10) by reflexivity.
  assert (H3 : forallb item_wf exam_items = true) by (vm_compute; reflexivity).
  split; [exact H1 | split; [exact H2 | split; [exact H3 |]]].
  exact (segment_text_window examiner_segment exam_items 0 10 H1 H2 H3).
Defined.

(** ** Claim on the report *)

(** C6: a declared step is highlighted as a discrepancy exactly when its
    observed action has [motion_present] equal to ['brief'] or
    ['not_observed'] (pose_match plays no part); a step with no observed
    action shows ['unknown'], is not a discrepancy and is counted neither as
    performed nor as not observed. *)
Theorem discrepancy_iff_brief_or_not_observed all_actions step :
  (is_discrepancy (step_actions all_actions) step = true <->
   exists a, step_actions all_actions (declared_step_id step) = Some a /\
             (motion_present a = Some "brief" \/
              motion_present a = Some "not_observed")) /\
  (step_actions all_actions (declared_step_id step) = None ->
   shown_motion (step_actions all_actions) step = "unknown" /\
   is_discrepancy (step_actions all_actions) step = false /\
   motion_is (step_actions all_actions) "not_observed" step = false /\
   motion_is (step_actions all_actions) "performed" step = false).
Proof.
  unfold is_discrepancy, motion_is, shown_motion.
  destruct (step_actions all_actions (declared_step_id step)) as [a |].
  - split; [| discriminate].
    destruct (motion_present a) as [m |] eqn:Em; cbn.
    + rewrite orb_false_r; split.
      * intro H; apply orb_true_iff in H as [H | H]; apply String.eqb_eq in H;
          subst m; exists a; auto.
      * intros [a' [E [H | H]]]; inversion E; subst a'; rewrite Em in H;
          inversion H; subst m; reflexivity.
    + split; [discriminate |].
      intros [a' [E [H | H]]]; inversion E; subst a'; congruence.
  - split; [| intros _; auto].
    split; [cbn; discriminate | intros [a' [E _]]; discriminate].
Qed.

Lemma discrepancy_iff_brief_or_not_observed_witness :
  let acts := [{| action_declared_step_id := Some "step-1";
                  motion_present := Some "not_observed";
                  pose_match := Some "full_match" |}] in
  let step := {| declared_step_id := "step-1"; step_label := Some "lumbar_rom" |} in
  is_discrepancy (step_actions acts) step = true /\
  ((is_discrepancy (step_actions acts) step = true <->
    exists a, step_actions acts (declared_step_id step) = Some a /\
              (motion_present a = Some "brief" \/
               motion_present a = Some "not_observed")) /\
   (step_actions acts (declared_step_id step) = None ->
    shown_motion (step_actions acts) step = "unknown" /\
    is_discrepancy (step_actions acts) step = false /\
    motion_is (step_actions acts) "not_observed" step = false /\
    motion_is (step_actions acts) "performed" step = false)).
Proof.
  intros acts step.
  split; [vm_compute; reflexivity |].
  exact (discrepancy_iff_brief_or_not_observed acts step).
Defined.

(** * Further properties of the code *)

(** ** The classifier's threshold *)

Lemma Qltb_true x y : Qltb x y = true -> x < y.
Proof.
  unfold Qltb; intro H; apply Qnot_le_lt; intro Hle.
  apply Qle_bool_iff in Hle; rewrite Hle in H; discriminate.
Qed.

Lemma Qltb_false x y : Qltb x y = false -> y <= x.
Proof.
  unfold Qltb; intro H; apply Qle_bool_iff; now destruct (Qle_bool y x).
Qed.

Lemma keyword_matches_le cfg tl :
  (keyword_matches cfg tl <= length (keywords cfg))%nat.
Proof. apply filter_length_le. Qed.

(** The keyword term [0.3 * min(k / n, 1)]: [0] without a keyword, below
    [0.3] with some but not all of them, and [0.3] with all of them. *)
Lemma keyword_term_cases cfg tl t :
  t = (if (0 <? keyword_matches cfg tl)%nat
       then 0 + (3 # 10) * Qmin (inject_Z (Z.of_nat (keyword_matches cfg tl))
                                 / inject_Z (Z.of_nat (length (keywords cfg)))) 1
       else 0) ->
  (keyword_matches cfg tl = 0%nat /\ t == 0) \/
  ((0 < keyword_matches cfg tl < length (keywords cfg))%nat /\ 0 < t /\ t < 3 # 10) \/
  ((0 < keyword_matches cfg tl)%nat /\ keyword_matches cfg tl = length (keywords cfg) /\
   t == 3 # 10).
Proof.
  intros ->.
  pose proof (keyword_matches_le cfg tl) as Hle.
  set (k := keyword_matches cfg tl) in *; set (n := length (keywords cfg)) in *.
  clearbody k n.
  destruct (Nat.ltb_spec 0 k) as [Hk | Hk].
  2: { left; split; [lia | reflexivity]. }
  right.
  assert (Hn : 0 < inject_Z (Z.of_nat n)) by (unfold Qlt; simpl; lia).
  set (x := inject_Z (Z.of_nat k) / inject_Z (Z.of_nat n)).
  assert (Hx0 : 0 < x).
  { apply Qlt_shift_div_l; [exact Hn |]; rewrite Qmult_0_l.
    unfold Qlt; simpl; lia. }
  destruct (Nat.eq_dec k n) as [Ekn | Ekn].
  - right; split; [exact Hk | split; [exact Ekn |]].
    assert (Hx1 : x == 1).
    { unfold x; rewrite Ekn; unfold Qdiv; apply Qmult_inv_r.
      intro E; rewrite E in Hn; discriminate. }
    clearbody x; destruct (Qmin_cases x 1) as [[-> Hm] | [-> Hm]]; lra.
  - left; split; [lia |].
    assert (Hx1 : x < 1).
    { apply Qlt_shift_div_r; [exact Hn |]; rewrite Qmult_1_l.
      unfold Qlt; simpl; lia. }
    clearbody x; destruct (Qmin_cases x 1) as [[-> Hm] | [-> Hm]]; split; lra.
Qed.

Ltac destr_qltb :=
  repeat match goal with
  | |- context [Qltb ?x ?y] =>
      let E := fresh "E" in
      destruct (Qltb x y) eqn:E; [apply Qltb_true in E | apply Qltb_false in E]
  end.

(** A category clears [0.5] exactly when one of its rules matches, or when
    all of its keywords occur and the text has a declaration phrase; in the
    second case, with no rule matching, its score is exactly [0.5]. *)
Lemma category_score_threshold cfg tl :
  ((1 # 2) <= category_score cfg tl <->
   (0 < pattern_matches cfg tl)%nat \/
   ((0 < keyword_matches cfg tl)%nat /\ keyword_matches cfg tl = length (keywords cfg) /\
    has_declaration tl = true)) /\
  (pattern_matches cfg tl = 0%nat -> (1 # 2) <= category_score cfg tl ->
   category_score cfg tl == 1 # 2).
Proof.
  unfold category_score; cbv zeta.
  match goal with
  | |- context [if (0 <? keyword_matches ?c ?l)%nat then ?a else ?b] =>
      remember (if (0 <? keyword_matches c l)%nat then a else b) as t eqn:Et
  end.
  pose proof (keyword_term_cases cfg tl t Et) as Hc.
  destruct (Nat.ltb_spec 0 (pattern_matches cfg tl)) as [Hp | Hp];
    destruct (has_declaration tl); cbn [andb]; destr_qltb;
    (destruct Hc as [[Hk Ht] | [[[Hk1 Hk2] [Ht1 Ht2]] | [Hk1 [Hk2 Ht]]]]);
    (split; [split; intro H | intros Hp0 H]);
    first [ exfalso; lra
          | exfalso; lia
          | lra
          | left; lia
          | right; repeat split; (lia || reflexivity)
          | destruct H as [H | [H1 [H2 H3]]]; first [exfalso; lia | discriminate | lra] ].
Qed.

(** X1: a category of a taxonomy with distinct labels is emitted exactly when
    one of its pattern rules matches the lowercased text, or when every one
    of its keywords occurs and the text has a declaration phrase.  A
    candidate emitted on keywords alone has confidence exactly [0.5]. *)
Theorem candidate_emitted_iff tax test_label cfg text ts
    (Hnd : NoDup (map fst tax)) (Hin : In (test_label, cfg) tax) :
  ((exists c, In c (analyze_text_for_tests tax text ts) /\ c_label c = test_label) <->
   (0 < pattern_matches cfg (lower text))%nat \/
   ((0 < keyword_matches cfg (lower text))%nat /\
    keyword_matches cfg (lower text) = length (keywords cfg) /\
    has_declaration (lower text) = true)) /\
  (pattern_matches cfg (lower text) = 0%nat ->
   forall c, In c (analyze_text_for_tests tax text ts) -> c_label c = test_label ->
   c_confidence c == 1 # 2).
Proof.
  destruct (category_score_threshold cfg (lower text)) as [Hiff Hkw].
  split; [split |].
  - intros [c [Hc Hl]].
    apply in_analyze_text_for_tests in Hc as [l [cfg' [Hin' [Hs ->]]]].
    cbn in Hl; subst l.
    rewrite (NoDup_fst_functional _ _ _ _ Hnd Hin' Hin) in Hs.
    apply Hiff; exact Hs.
  - intro H; apply Hiff in H.
    exists {| c_label := test_label; c_timestamp := ts;
              c_confidence := Qmin (category_score cfg (lower text)) 1;
              c_matched_text := take 200 text |}.
    split; [| reflexivity].
    unfold analyze_text_for_tests; apply in_flat_map.
    exists (test_label, cfg); split; [exact Hin |]; cbv beta iota.
    replace (Qle_bool (1 # 2) (category_score cfg (lower text))) with true
      by (symmetry; apply Qle_bool_iff; exact H).
    left; reflexivity.
  - intros Hp c Hc Hl.
    apply in_analyze_text_for_tests in Hc as [l [cfg' [Hin' [Hs ->]]]].
    cbn in Hl |- *; subst l.
    rewrite (NoDup_fst_functional _ _ _ _ Hnd Hin' Hin) in Hs |- *.
    pose proof (Hkw Hp Hs) as Heq.
    destruct (Qmin_cases (category_score cfg (lower text)) 1) as [[-> _] | [-> H1]];
      lra.
Qed.

Lemma candidate_emitted_iff_witness :
  NoDup (map fst TEST_TAXONOMY) /\
  In ("straight_leg_raise",
      snd (nth 2 TEST_TAXONOMY ("", {| keywords := []; patterns := [] |})))
     TEST_TAXONOMY /\
  (((exists c, In c (analyze_text_for_tests TEST_TAXONOMY slr_text 42) /\
               c_label c = "straight_leg_raise") <->
    (0 < pattern_matches
           (snd (nth 2 TEST_TAXONOMY ("", {| keywords := []; patterns := [] |})))
           (lower slr_text))%nat \/
    ((0 < keyword_matches
            (snd (nth 2 TEST_TAXONOMY ("", {| keywords := []; patterns := [] |})))
            (lower slr_text))%nat /\
     keyword_matches
       (snd (nth 2 TEST_TAXONOMY ("", {| keywords := []; patterns := [] |})))
       (lower slr_text) =
     length (keywords
       (snd (nth 2 TEST_TAXONOMY ("", {| keywords := []; patterns := [] |})))) /\
     has_declaration (lower slr_text) = true)) /\
   (pattern_matches
      (snd (nth 2 TEST_TAXONOMY ("", {| keywords := []; patterns := [] |})))
      (lower slr_text) = 0%nat ->
    forall c, In c (analyze_text_for_tests TEST_TAXONOMY slr_text 42) ->
    c_label c = "straight_leg_raise" -> c_confidence c == 1 # 2)).
Proof.
  assert (Hin : In ("straight_leg_raise",
                    snd (nth 2 TEST_TAXONOMY ("", {| keywords := []; patterns := [] |})))
                   TEST_TAXONOMY) by (cbn; tauto).
  split; [exact TEST_TAXONOMY_labels_unique | split; [exact Hin |]].
  exact (candidate_emitted_iff TEST_TAXONOMY _ _ slr_text 42
           TEST_TAXONOMY_labels_unique Hin).
Defined.

(** ** Order and uniqueness of the candidates *)




(** ** Case-insensitivity *)

(** X3: the classifier reads the text only through [text.lower()], except
    for the matched text it quotes: two texts with the same lowercase form
    give candidates with the same labels, timestamps and confidences. *)
Theorem classifier_case_insensitive tax text1 text2 ts
    (Hlow : lower text1 = lower text2) :
  map (fun c => (c_label c, c_timestamp c, c_confidence c))
      (analyze_text_for_tests tax text1 ts) =
  map (fun c => (c_label c, c_timestamp c, c_confidence c))
      (analyze_text_for_tests tax text2 ts).
Proof.
  unfold analyze_text_for_tests; rewrite Hlow.
  induction tax as [| [l cfg] tax IH]; [reflexivity |].
  cbn [flat_map]; rewrite !map_app, IH.
  destruct (Qle_bool (1 # 2) (category_score cfg (lower text2))); reflexivity.
Qed.

Lemma classifier_case_insensitive_witness :
  lower "NOW LET'S CHECK YOUR STRAIGHT LEG RAISE" =
  lower "now let's check your straight leg raise" /\
  map (fun c => (c_label c, c_timestamp c, c_confidence c))
      (analyze_text_for_tests TEST_TAXONOMY "NOW LET'S CHECK YOUR STRAIGHT LEG RAISE" 7) =
  map (fun c => (c_label c, c_timestamp c, c_confidence c))
      (analyze_text_for_tests TEST_TAXONOMY "now let's check your straight leg raise" 7).
Proof.
  assert (H : lower "NOW LET'S CHECK YOUR STRAIGHT LEG RAISE" =
              lower "now let's check your straight leg raise") by (vm_compute; reflexivity).
  split; [exact H | exact (classifier_case_insensitive TEST_TAXONOMY _ _ 7 H)].
Defined.

(** X5: the tone scan reads the text only through [text.lower()] (the
    patterns run without [re.IGNORECASE] on the lowercased text): two texts
    with the same lowercase form give flags of the same kinds, severities and
    descriptions, in the same order, at the same timestamp. *)
Theorem tone_case_insensitive text1 text2 ts
    (Hlow : lower text1 = lower text2) :
  map (fun f => (flag_type f, f_timestamp f, severity f, description f))
      (analyze_tone text1 ts) =
  map (fun f => (flag_type f, f_timestamp f, severity f, description f))
      (analyze_tone text2 ts).
Proof.
  unfold analyze_tone; rewrite Hlow, !map_app, !map_map; reflexivity.
Qed.

Lemma tone_case_insensitive_witness :
  lower "That's RIDICULOUS, just DO IT" = lower "that's ridiculous, just do it" /\
  map (fun f => (flag_type f, f_timestamp f, severity f, description f))
      (analyze_tone "That's RIDICULOUS, just DO IT" 3) =
  map (fun f => (flag_type f, f_timestamp f, severity f, description f))
      (analyze_tone "that's ridiculous, just do it" 3).
Proof.
  assert (H : lower "That's RIDICULOUS, just DO IT" = lower "that's ridiculous, just do it")
    by (vm_compute; reflexivity).
  split; [exact H | exact (tone_case_insensitive _ _ 3 H)].
Defined.

(** ** Detection over the segments *)

Lemma get_segment_text_seg_text seg its :
  segment_wf seg = true -> forallb item_wf its = true ->
  get_segment_text seg its = Some (seg_text its seg).
Proof. intros Hs Hi; rewrite get_segment_text_wf by assumption; reflexivity. Qed.

(** X4: on a well-formed transcript, [detect_declared_tests] is the
    concatenation, segment by segment and for every speaker, of the
    classifier's candidates on that segment's text at its start time, each
    tagged with the segment's speaker (['unknown'] when it has none) and
    text. *)
Theorem detect_declared_tests_per_segment tax t
    (Hwf : transcript_wf t = true) :
  detect_declared_tests tax t =
  flat_map (fun seg =>
      map (with_segment (match speaker_label seg with Some s => s | None => "unknown" end)
                        (seg_text (items t) seg))
          (analyze_text_for_tests tax (seg_text (items t) seg) (seg_time seg)))
    (segments t).
Proof.
  unfold transcript_wf in Hwf; apply andb_true_iff in Hwf as [Hi Hs].
  unfold detect_declared_tests.
  enough (E : detect_loop tax (items t) (segments t) =
              Some (flat_map (fun seg =>
                      map (with_segment
                             (match speaker_label seg with Some s => s | None => "unknown" end)
                             (seg_text (items t) seg))
                          (analyze_text_for_tests tax (seg_text (items t) seg)
                             (seg_time seg))) (segments t)))
    by (rewrite E; reflexivity).
  induction (segments t) as [| seg rest IH]; [reflexivity |].
  simpl in Hs; apply andb_true_iff in Hs as [Hseg Hrest].
  pose proof (get_segment_text_seg_text seg (items t) Hseg Hi) as Ht.
  apply andb_true_iff in Hseg as [H1 H2].
  destruct (parse_time_ok _ H1) as [st Hst]; destruct (parse_time_ok _ H2) as [en Hen].
  cbn [detect_loop flat_map]; rewrite Hst, Hen; cbn [bind]; rewrite Ht; cbn [bind].
  rewrite (IH Hrest); cbn [bind].
  unfold seg_time; rewrite Hst; reflexivity.
Qed.

Lemma detect_declared_tests_per_segment_witness :
  transcript_wf good_transcript = true /\
  detect_declared_tests TEST_TAXONOMY good_transcript =
  flat_map (fun seg =>
      map (with_segment (match speaker_label seg with Some s => s | None => "unknown" end)
                        (seg_text (items good_transcript) seg))
          (analyze_text_for_tests TEST_TAXONOMY (seg_text (items good_transcript) seg)
             (seg_time seg)))
    (segments good_transcript).
Proof.
  assert (H : transcript_wf good_transcript = true) by (vm_compute; reflexivity).
  split; [exact H | exact (detect_declared_tests_per_segment TEST_TAXONOMY _ H)].
Defined.

(** X10: a segment whose end time lies before its start time gets the empty
    text: no item can start inside the window. *)
Theorem reversed_window_empty_text seg its ss se
    (Hs : parse_time (seg_start seg) = Some ss)
    (He : parse_time (seg_end seg) = Some se)
    (Hlt : se < ss) (Hwf : forallb item_wf its = true) :
  get_segment_text seg its = Some "".
Proof.
  unfold get_segment_text; rewrite Hs, He; cbn [bind].
  rewrite collect_words_spec by exact Hwf.
  rewrite filter_all_false; [reflexivity |].
  intros it _; unfold in_window.
  destruct (Qle_bool ss (item_time it)) eqn:E1; [| now rewrite andb_false_r].
  destruct (Qle_bool (item_time it) se) eqn:E2; [| now rewrite andb_false_r].
  apply Qle_bool_iff in E1, E2; lra.
Qed.

Lemma reversed_window_empty_text_witness :
  let seg := {| speaker_label := Some "speaker_0"; seg_start := Some (RNum 9);
                seg_end := Some (RNum 2) |} in
  parse_time (seg_start seg) = Some 9 /\ parse_time (seg_end seg) = Some 2 /\
  2 < 9 /\ forallb item_wf exam_items = true /\
  get_segment_text seg exam_items = Some "".
Proof.
  intro seg.
  assert (H1 : parse_time (seg_start seg) = Some 9) by reflexivity.
  assert (H2 : parse_time (seg_end seg) = Some 2) by reflexivity.
  assert (H3 : 2 < 9) by (vm_compute; reflexivity).
  assert (H4 : forallb item_wf exam_items = true) by (vm_compute; reflexivity).
  split; [exact H1 | split; [exact H2 | split; [exact H3 | split; [exact H4 |]]]].
  exact (reversed_window_empty_text seg exam_items 9 2 H1 H2 H3 H4).
Defined.

(** ** Where the demeanor flags come from *)




(** ** The sentiment call *)

(** X7: the whole pass asks the sentiment service one question only: the
    first 5000 characters of the space-joined texts of the examiner's first
    ten segments.  Two services that agree on that text give the same
    flags. *)
Theorem sentiment_oracle_single_query o1 o2 examiner t texts
    (Ht : map_opt (fun s => get_segment_text s (items t))
            (firstn 10 (filter (fun s => opt_str_eqb (speaker_label s) (Some examiner))
                               (segments t))) = Some texts)
    (Ho : o1 (take 5000 (join_space texts)) = o2 (take 5000 (join_space texts))) :
  analyze_examiner_demeanor o1 examiner t = analyze_examiner_demeanor o2 examiner t.
Proof.
  unfold analyze_examiner_demeanor, demeanor_pass; cbv zeta.
  destruct (demeanor_loop examiner (items t) (segments t) 0 None); [| reflexivity].
  cbn [bind]; rewrite Ht; cbn [bind].
  unfold analyze_sentiment_comprehend; rewrite Ho; reflexivity.
Qed.

Lemma sentiment_oracle_single_query_witness :
  map_opt (fun s => get_segment_text s (items good_transcript))
    (firstn 10 (filter (fun s => opt_str_eqb (speaker_label s) (Some "speaker_0"))
                       (segments good_transcript))) =
    Some ["Let's do the straight leg raise that's ridiculous"] /\
  negative_service (take 5000 (join_space ["Let's do the straight leg raise that's ridiculous"]))
  = (fun q => if String.eqb q "" then None else negative_service q)
      (take 5000 (join_space ["Let's do the straight leg raise that's ridiculous"])) /\
  analyze_examiner_demeanor negative_service "speaker_0" good_transcript =
  analyze_examiner_demeanor (fun q => if String.eqb q "" then None else negative_service q)
    "speaker_0" good_transcript.
Proof.
  assert (H1 : map_opt (fun s => get_segment_text s (items good_transcript))
                 (firstn 10 (filter (fun s => opt_str_eqb (speaker_label s) (Some "speaker_0"))
                                    (segments good_transcript))) =
               Some ["Let's do the straight leg raise that's ridiculous"])
    by (vm_compute; reflexivity).
  assert (H2 : negative_service (take 5000 (join_space
                 ["Let's do the straight leg raise that's ridiculous"]))
               = (fun q => if String.eqb q "" then None else negative_service q)
                   (take 5000 (join_space
                      ["Let's do the straight leg raise that's ridiculous"])))
    by (vm_compute; reflexivity).
  split; [exact H1 | split; [exact H2 |]].
  exact (sentiment_oracle_single_query _ _ "speaker_0" good_transcript _ H1 H2).
Defined.

Lemma opt_str_eqb_Some a b : opt_str_eqb a (Some b) = true -> a = Some b.
Proof.
  destruct a as [x |]; cbn; [intro H; apply String.eqb_eq in H; now subst | discriminate].
Qed.

(** X8: the pass adds at most one negative_sentiment flag, and only when the
    service classifies the examiner's sampled text as [NEGATIVE] with a
    [Negative] score above [0.6]; the flag carries the service's scores. *)
Theorem sentiment_flag_conditions o examiner t :
  (length (filter is_negative_sentiment (analyze_examiner_demeanor o examiner t)) <= 1)%nat /\
  forall f, In f (analyze_examiner_demeanor o examiner t) -> is_negative_sentiment f = true ->
  exists texts r v,
    map_opt (fun s => get_segment_text s (items t))
      (firstn 10 (filter (fun s => opt_str_eqb (speaker_label s) (Some examiner))
                         (segments t))) = Some texts /\
    o (take 5000 (join_space texts)) = Some r /\
    sentiment r = Some "NEGATIVE" /\
    assoc "Negative" (sentiment_score r) = Some v /\ 6 # 10 < v /\
    sentiment_scores f = Some (sentiment_score r) /\ severity f = "medium".
Proof.
  unfold analyze_examiner_demeanor, demeanor_pass; cbv zeta.
  destruct (demeanor_loop examiner (items t) (segments t) 0 None) as [fl |] eqn:El;
    [| split; [cbn; lia | contradiction]]; cbn [bind].
  destruct (map_opt _ _) as [texts |] eqn:Et; [| split; [cbn; lia | contradiction]];
    cbn [bind].
  assert (Hfl : filter is_negative_sentiment fl = []).
  { apply filter_all_false; intros x Hx.
    exact (proj2 (demeanor_loop_kinds _ _ _ _ _ _ El x Hx)). }
  split.
  - rewrite filter_app, Hfl, app_nil_l.
    destruct (String.eqb (join_space texts) ""); [cbn; lia |].
    unfold analyze_sentiment_comprehend.
    destruct (o _); [| cbn; lia].
    destruct (_ && _); [| cbn; lia].
    eapply Nat.le_trans; [apply filter_length_le |].
    destruct (match _ with [] => _ | _ => _ end); cbn; lia.
  - intros f Hf Hneg; apply in_app_iff in Hf as [Hf | Hf].
    + assert (Hx : In f (filter is_negative_sentiment fl)) by (apply filter_In; auto).
      rewrite Hfl in Hx; contradiction.
    + destruct (String.eqb (join_space texts) ""); [contradiction |].
      unfold analyze_sentiment_comprehend in Hf.
      destruct (o (take 5000 (join_space texts))) as [r |] eqn:Eo; [| contradiction].
      destruct (opt_str_eqb (sentiment r) (Some "NEGATIVE")) eqn:Es;
        [| contradiction]; cbn [andb] in Hf.
      destruct (assoc "Negative" (sentiment_score r)) as [v |] eqn:Ev.
      * destruct (Qltb (6 # 10) v) eqn:Eq; [| contradiction].
        destruct (match _ with [] => _ | _ => _ end); [| contradiction].
        destruct Hf as [<- | []].
        exists texts, r, v; repeat split; auto.
        -- apply opt_str_eqb_Some; exact Es.
        -- apply Qltb_true; exact Eq.
      * cbn in Hf; contradiction.
Qed.

(** ** Tone flags *)

Lemma filter_all_true {A} (f : A -> bool) (l : list A) :
  (forall x, In x l -> f x = true) -> filter f l = l.
Proof.
  intros Hf; induction l as [| a l IH]; simpl; [reflexivity |].
  rewrite (Hf a (or_introl eq_refl)), IH; [reflexivity |].
  intros x Hx; apply Hf; now right.
Qed.

Lemma demeanor_loop_tone examiner its segs :
  forallb segment_wf segs = true -> forallb item_wf its = true ->
  forall count last fl,
  demeanor_loop examiner its segs count last = Some fl ->
  filter is_tone_flag fl =
  flat_map (fun s => if is_examiner examiner s
                     then analyze_tone (seg_text its s) (seg_time s) else []) segs.
Proof.
  intros Hs Hi; induction segs as [| seg rest IH]; intros count last fl H;
    simpl in H.
  - inversion H; reflexivity.
  - simpl in Hs; apply andb_true_iff in Hs as [Hseg Hrest].
    rewrite (get_segment_text_seg_text seg its Hseg Hi) in H.
    destruct (parse_time (seg_start seg)) as [st |] eqn:Est; [| discriminate];
      simpl in H.
    assert (Hst : seg_time seg = st) by (unfold seg_time; rewrite Est; reflexivity).
    assert (Htone : filter is_tone_flag (analyze_tone (seg_text its seg) st) =
                    analyze_tone (seg_text its seg) st).
    { apply filter_all_true; intros x Hx; apply analyze_tone_kinds in Hx.
      unfold is_tone_flag; destruct Hx as [_ [-> ->]]; reflexivity. }
    cbn [flat_map]; unfold is_examiner; rewrite Hst.
    destruct (opt_str_eqb (speaker_label seg) (Some examiner)).
    2: { apply (IH Hrest count (speaker_label seg) fl H). }
    remember (analyze_tone (seg_text its seg) st) as tf eqn:Etf.
    destruct (opt_str_eqb last (Some examiner)); cbn in H;
      destruct (demeanor_loop examiner its rest _ _) as [more |] eqn:Em;
      try discriminate; inversion H; subst fl;
      rewrite !filter_app, Htone, (IH Hrest _ _ _ Em).
    + destruct count as [| c]; reflexivity.
    + reflexivity.
Qed.

(** X9: on a well-formed transcript, the flags other than interruptions and
    the overall sentiment flag are exactly the tone scan of each examiner
    segment's text at its start time, segment by segment in order; other
    speakers' segments add none. *)
Theorem tone_flags_per_examiner_segment o examiner t
    (Hwf : transcript_wf t = true) :
  filter is_tone_flag (analyze_examiner_demeanor o examiner t) =
  flat_map (fun s => if is_examiner examiner s
                     then analyze_tone (seg_text (items t) s) (seg_time s) else [])
           (segments t).
Proof.
  pose proof Hwf as Hwf'.
  unfold transcript_wf in Hwf'; apply andb_true_iff in Hwf' as [Hi Hs].
  destruct (demeanor_loop_wf examiner (items t) (segments t) Hs Hi 0 None)
    as [fl Hfl].
  destruct (examiner_texts_wf examiner t Hwf) as [texts Htexts].
  unfold analyze_examiner_demeanor, demeanor_pass; cbv zeta.
  rewrite Hfl; cbn [bind]; rewrite Htexts; cbn [bind].
  rewrite filter_app, (demeanor_loop_tone examiner _ _ Hs Hi 0 None fl Hfl).
  destruct (String.eqb (join_space texts) ""); [apply app_nil_r |].
  rewrite (filter_all_false _ (analyze_sentiment_comprehend _ _ _));
    [apply app_nil_r |].
  intros x Hx; apply analyze_sentiment_kinds in Hx as [Hx _].
  unfold is_tone_flag, is_negative_sentiment; rewrite Hx; apply andb_false_r.
Qed.

Lemma tone_flags_per_examiner_segment_witness :
  transcript_wf good_transcript = true /\
  filter is_tone_flag (analyze_examiner_demeanor failing_oracle "speaker_0" good_transcript) =
  flat_map (fun s => if is_examiner "speaker_0" s
                     then analyze_tone (seg_text (items good_transcript) s) (seg_time s)
                     else [])
           (segments good_transcript).
Proof.
  assert (H : transcript_wf good_transcript = true) by (vm_compute; reflexivity).
  split; [exact H | exact (tone_flags_per_examiner_segment failing_oracle "speaker_0" _ H)].
Defined.

Lemma sentiment_flag_conditions_witness :
  let f := last (analyze_examiner_demeanor negative_service "speaker_0" good_transcript)
                (mk_flag "" 0 "" "" "") in
  In f (analyze_examiner_demeanor negative_service "speaker_0" good_transcript) /\
  is_negative_sentiment f = true /\
  exists texts r v,
    map_opt (fun s => get_segment_text s (items good_transcript))
      (firstn 10 (filter (fun s => opt_str_eqb (speaker_label s) (Some "speaker_0"))
                         (segments good_transcript))) = Some texts /\
    negative_service (take 5000 (join_space texts)) = Some r /\
    sentiment r = Some "NEGATIVE" /\
    assoc "Negative" (sentiment_score r) = Some v /\ 6 # 10 < v /\
    sentiment_scores f = Some (sentiment_score r) /\ severity f = "medium".
Proof.
  intro f.
  assert (Hin : In f (analyze_examiner_demeanor negative_service "speaker_0"
                        good_transcript))
    by (vm_compute; repeat (first [left; reflexivity | right])).
  assert (Hneg : is_negative_sentiment f = true) by (vm_compute; reflexivity).
  split; [exact Hin | split; [exact Hneg |]].
  exact (proj2 (sentiment_flag_conditions negative_service "speaker_0" good_transcript)
           f Hin Hneg).
Defined.

(** ** The step-to-action map of [_gather_session_data] *)

Lemma step_actions_nil k : step_actions [] k = None.
Proof. reflexivity. Qed.

Lemma step_actions_snoc acts b k :
  step_actions (acts ++ [b]) k =
  match action_declared_step_id b with
  | Some sid => if String.eqb sid "" then step_actions acts k
                else if String.eqb k sid then Some b else step_actions acts k
  | None => step_actions acts k
  end.
Proof.
  unfold step_actions; rewrite fold_left_app; cbn.
  destruct (action_declared_step_id b) as [sid |]; [| reflexivity].
  destruct (String.eqb sid ""); reflexivity.
Qed.

Lemma app_cons_snoc {A} (l1 l2 acts : list A) a b :
  (l1 ++ a :: l2 = acts ++ [b])%list ->
  (l2 = [] /\ a = b /\ l1 = acts) \/
  (exists l2', l2 = (l2' ++ [b])%list /\ acts = (l1 ++ a :: l2')%list).
Proof.
  destruct l2 as [| x l2'] using rev_ind; intro H.
  - apply app_inj_tail in H as [-> ->]; left; auto.
  - right; exists l2'.
    rewrite app_comm_cons, app_assoc in H.
    apply app_inj_tail in H as [-> ->]; auto.
Qed.

(** X11: [step_actions] maps a step id to the last action carrying it: the
    lookup of [k] finds [a] exactly when [k] is not empty ([if step_id:]
    skips falsy ids), [a] is one of the actions with id [k], and no later
    action has that id.  In particular the empty id is never found. *)
Theorem step_actions_last_wins all_actions k a :
  step_actions all_actions k = Some a <->
  k <> "" /\
  exists l1 l2, all_actions = (l1 ++ a :: l2)%list /\ action_declared_step_id a = Some k /\
                forall a', In a' l2 -> action_declared_step_id a' <> Some k.
Proof.
  induction all_actions as [| b acts IH] using rev_ind.
  - rewrite step_actions_nil; split; [discriminate |].
    intros [_ [l1 [l2 [E _]]]]; destruct l1; discriminate.
  - rewrite step_actions_snoc.
    assert (Hother : action_declared_step_id b <> Some k ->
                     (step_actions acts k = Some a <->
                      k <> "" /\
                      exists l1 l2, (acts ++ [b])%list = (l1 ++ a :: l2)%list /\
                        action_declared_step_id a = Some k /\
                        forall a', In a' l2 -> action_declared_step_id a' <> Some k)).
    { intro Hb; rewrite IH; split.
      - intros [Hk [l1 [l2 [E [Ha Hl2]]]]]; split; [exact Hk |].
        exists l1, (l2 ++ [b])%list; split; [rewrite E, <- app_assoc; reflexivity |].
        split; [exact Ha |].
        intros a' Ha'; apply in_app_iff in Ha' as [Ha' | [<- | []]]; auto.
      - intros [Hk [l1 [l2 [E [Ha Hl2]]]]]; split; [exact Hk |].
        symmetry in E; apply app_cons_snoc in E
          as [[-> [-> ->]] | [l2' [-> ->]]].
        + contradiction.
        + exists l1, l2'; split; [reflexivity | split; [exact Ha |]].
          intros a' Ha'; apply Hl2, in_or_app; now left. }
    destruct (action_declared_step_id b) as [sid |] eqn:Eb.
    2: { apply Hother; discriminate. }
    destruct (String.eqb_spec sid "") as [-> | Hsid].
    { destruct (String.eqb_spec k "") as [-> | Hk].
      - rewrite IH; split; intros [Hk _]; contradiction.
      - apply Hother; intro E; inversion E; subst; contradiction. }
    destruct (String.eqb_spec k sid) as [-> | Hk].
    2: { apply Hother; intro E; inversion E; subst; contradiction. }
    split.
    + intro E; inversion E; subst a; split; [exact Hsid |].
      exists acts, []; split; [reflexivity | split; [exact Eb | intros _ []]].
    + intros [_ [l1 [l2 [E [Ha Hl2]]]]].
      symmetry in E; apply app_cons_snoc in E as [[_ [-> _]] | [l2' [-> _]]];
        [reflexivity |].
      exfalso; apply (Hl2 b); [apply in_or_app; right; now left | exact Eb].
Qed.

Lemma step_actions_last_wins_witness :
  let a1 := {| action_declared_step_id := Some "step-1"; motion_present := Some "brief";
               pose_match := None |} in
  let a2 := {| action_declared_step_id := Some "step-1"; motion_present := Some "performed";
               pose_match := None |} in
  step_actions [a1; a2] "step-1" = Some a2 /\
  (step_actions [a1; a2] "step-1" = Some a2 <->
   "step-1" <> "" /\
   exists l1 l2, [a1; a2] = (l1 ++ a2 :: l2)%list /\ action_declared_step_id a2 = Some "step-1" /\
                 forall a', In a' l2 -> action_declared_step_id a' <> Some "step-1").
Proof.
  intros a1 a2; split; [reflexivity |].
  exact (step_actions_last_wins [a1; a2] "step-1" a2).
Defined.

(** ** Summary statistics of [_generate_html_report] *)



(** ** Timeline timestamps [MM:SS] *)

Lemma Qfloor_unique (x : Q) (z : Z) :
  inject_Z z <= x -> x < inject_Z (z + 1) -> Qfloor x = z.
Proof.
  intros H1 H2.
  pose proof (Qfloor_resp_le _ _ H1) as A; rewrite Qfloor_Z in A.
  pose proof (Qfloor_le x) as B.
  assert (C : inject_Z (Qfloor x) < inject_Z (z + 1)) by (eapply Qle_lt_trans; eauto).
  rewrite <- Zlt_Qlt in C; lia.
Qed.

Lemma string_length_app s1 s2 :
  String.length (s1 ++ s2) = (String.length s1 + String.length s2)%nat.
Proof. induction s1 as [| c s1 IH]; simpl; auto. Qed.

Lemma pad2_length z : (0 <= z < 100)%Z -> String.length (pad2 z) = 2%nat.
Proof.
  intro Hz.
  assert (Hall : forallb (fun n => Nat.eqb (String.length (pad2 (Z.of_nat n))) 2)
                         (seq 0 100) = true) by (vm_compute; reflexivity).
  rewrite forallb_forall in Hall.
  specialize (Hall (Z.to_nat z)); rewrite Z2Nat.id in Hall by lia.
  apply Nat.eqb_eq, Hall, in_seq; lia.
Qed.

Lemma py_int_nonneg x : 0 <= x -> py_int x = Qfloor x.
Proof.
  intro H; unfold py_int; apply Qle_bool_iff in H; rewrite H; reflexivity.
Qed.

(** X13: for a timestamp [t >= 0], the timeline shows [minutes] and
    [seconds] with [0 <= seconds < 60], [minutes >= 0] and
    [60 * minutes + seconds = floor t]; below [6000] seconds the string is
    [MM:SS], five characters long. *)
Theorem time_parts_spec ts (Hts : 0 <= ts) :
  (0 <= fst (time_parts ts))%Z /\ (0 <= snd (time_parts ts) < 60)%Z /\
  (60 * fst (time_parts ts) + snd (time_parts ts) = Qfloor ts)%Z /\
  (ts < 6000 -> String.length (time_str ts) = 5%nat).
Proof.
  set (y := ts / 60).
  assert (Hy : ts == 60 * y) by (unfold y; rewrite Qmult_div_r; [reflexivity | discriminate]).
  set (m := Qfloor y).
  assert (Hm1 : inject_Z m <= y) by apply Qfloor_le.
  assert (Hm2 : y < inject_Z m + 1)
    by (pose proof (Qlt_floor y) as H; rewrite inject_Z_plus in H; exact H).
  assert (Hm0 : (0 <= m)%Z).
  { change 0%Z with (Qfloor 0); apply Qfloor_resp_le; lra. }
  assert (Hmq : 0 <= inject_Z m) by (change 0 with (inject_Z 0); rewrite <- Zle_Qle; exact Hm0).
  set (r := ts - 60 * inject_Z m).
  assert (Hr : 0 <= r /\ r < 60) by (unfold r; split; lra).
  set (s := Qfloor r).
  assert (Hs1 : inject_Z s <= r) by apply Qfloor_le.
  assert (Hs2 : r < inject_Z s + 1)
    by (pose proof (Qlt_floor r) as H; rewrite inject_Z_plus in H; exact H).
  assert (Hs0 : (0 <= s)%Z).
  { change 0%Z with (Qfloor 0); apply Qfloor_resp_le; lra. }
  assert (Hs60 : (s < 60)%Z) by (rewrite Zlt_Qlt; change (inject_Z 60) with 60; lra).
  assert (Hparts : time_parts ts = (m, s)).
  { unfold time_parts, py_floordiv, py_mod; fold y; fold m; fold r.
    rewrite (py_int_nonneg _ Hmq), Qfloor_Z, (py_int_nonneg _ (proj1 Hr)); reflexivity. }
  rewrite Hparts; cbn [fst snd].
  split; [exact Hm0 | split; [lia | split]].
  - symmetry; apply Qfloor_unique.
    + rewrite inject_Z_plus, inject_Z_mult; change (inject_Z 60) with 60; unfold r in *; lra.
    + rewrite !inject_Z_plus, inject_Z_mult; change (inject_Z 60) with 60;
        change (inject_Z 1) with 1; unfold r in *; lra.
  - intro Hlt.
    assert (Hm100 : (m < 100)%Z) by (rewrite Zlt_Qlt; change (inject_Z 100) with 100; lra).
    unfold time_str; rewrite Hparts, !string_length_app, !pad2_length by lia.
    reflexivity.
Qed.

Lemma time_parts_spec_witness :
  0 <= 754 # 10 /\
  ((0 <= fst (time_parts (754 # 10)))%Z /\ (0 <= snd (time_parts (754 # 10)) < 60)%Z /\
   (60 * fst (time_parts (754 # 10)) + snd (time_parts (754 # 10)) = Qfloor (754 # 10))%Z /\
   ((754 # 10) < 6000 -> String.length (time_str (754 # 10)) = 5%nat)).
Proof.
  assert (H : 0 <= 754 # 10) by (vm_compute; discriminate).
  split; [exact H | exact (time_parts_spec (754 # 10) H)].
Defined.

(** ** Sorting by timestamp in [_gather_session_data] *)

Section SortByTimestamp.

Context {A : Type}.

Lemma insert_by_key_perm k x (l : list (Q * A)) :
  Permutation (insert_by_key k x l) ((k, x) :: l).
Proof.
  induction l as [| [k' y] l IH]; simpl; [reflexivity |].
  destruct (Qltb k k'); [reflexivity |].
  rewrite IH; apply perm_swap.
Qed.

Lemma sort_by_key_perm (kvs acc : list (Q * A)) :
  Permutation (fold_left (fun acc '(k, x) => insert_by_key k x acc) kvs acc) (kvs ++ acc).
Proof.
  revert acc; induction kvs as [| [k x] kvs IH]; intro acc; simpl; [reflexivity |].
  rewrite IH, insert_by_key_perm; symmetry; apply Permutation_middle.
Qed.

Lemma insert_by_key_hdrel a k x (l : list (Q * A)) :
  HdRel key_le a l -> key_le a (k, x) -> HdRel key_le a (insert_by_key k x l).
Proof.
  destruct l as [| [k' y] l]; simpl; intros H1 H2; [constructor; exact H2 |].
  destruct (Qltb k k'); constructor; [exact H2 |].
  inversion H1; assumption.
Qed.

Lemma insert_by_key_sorted k x (l : list (Q * A)) :
  Sorted key_le l -> Sorted key_le (insert_by_key k x l).
Proof.
  induction l as [| [k' y] l IH]; simpl; intro Hs; [repeat constructor |].
  destruct (Qltb k k') eqn:E.
  - constructor; [exact Hs |]; constructor.
    unfold key_le; cbn; apply Qlt_le_weak, Qltb_true, E.
  - inversion Hs as [| ? ? Hs' Hhd]; subst.
    constructor; [apply IH, Hs' |].
    apply insert_by_key_hdrel; [exact Hhd |].
    unfold key_le; cbn; apply Qltb_false, E.
Qed.

Lemma sort_by_key_sorted (kvs acc : list (Q * A)) :
  Sorted key_le acc ->
  Sorted key_le (fold_left (fun acc '(k, x) => insert_by_key k x acc) kvs acc).
Proof.
  revert acc; induction kvs as [| [k x] kvs IH]; intros acc Hs; simpl; [exact Hs |].
  apply IH, insert_by_key_sorted, Hs.
Qed.

Lemma keyed_map_opt (timestamp_of : A -> option raw_time) (l : list A) kvs :
  map_opt (fun x => k <- parse_time (timestamp_of x);; Some (k, x)) l = Some kvs ->
  map snd kvs = l /\ Forall (key_ok timestamp_of) kvs.
Proof.
  revert kvs; induction l as [| x l IH]; intros kvs H; simpl in H.
  - inversion H; subst; split; [reflexivity | constructor].
  - destruct (parse_time (timestamp_of x)) as [k |] eqn:Ek; [| discriminate]; simpl in H.
    destruct (map_opt _ l) as [kvs' |]; [| discriminate]; simpl in H.
    inversion H; subst.
    destruct (IH kvs' eq_refl) as [Hm Hf].
    split; [simpl; rewrite Hm; reflexivity | constructor; [exact Ek | exact Hf]].
Qed.

Lemma sorted_keys_transfer (timestamp_of : A -> option raw_time) (l : list (Q * A)) :
  Sorted key_le l -> Forall (key_ok timestamp_of) l -> Sorted (ts_le timestamp_of) (map snd l).
Proof.
  induction l as [| [k x] l IH]; intros Hs Hf; simpl; [constructor |].
  inversion Hs as [| ? ? Hs' Hhd]; subst.
  inversion Hf as [| ? ? Hx Hf']; subst.
  constructor; [apply IH; assumption |].
  destruct l as [| [k' y] l]; simpl; constructor.
  inversion Hhd as [| ? ? Hle]; subst.
  inversion Hf' as [| ? ? Hy _]; subst.
  exists k, k'; split; [exact Hx | split; [exact Hy | exact Hle]].
Qed.

End SortByTimestamp.

(** X14: when every record's timestamp parses, the records come back
    reordered, none lost or duplicated, in non-decreasing timestamp
    order. *)
Theorem sorted_by_timestamp_spec {A} (timestamp_of : A -> option raw_time) l out
    (H : sorted_by_timestamp timestamp_of l = Some out) :
  Permutation out l /\ Sorted (ts_le timestamp_of) out.
Proof.
  unfold sorted_by_timestamp in H.
  destruct (map_opt _ l) as [kvs |] eqn:Ek; [| discriminate]; simpl in H.
  inversion H; subst out.
  destruct (keyed_map_opt timestamp_of l kvs Ek) as [Hm Hf].
  pose proof (sort_by_key_perm kvs []) as Hp; rewrite app_nil_r in Hp.
  split.
  - rewrite <- Hm; apply Permutation_map; exact Hp.
  - apply sorted_keys_transfer.
    + apply sort_by_key_sorted; constructor.
    + rewrite Forall_forall in Hf |- *; intros p Hin.
      apply Hf; apply (Permutation_in _ Hp); exact Hin.
Qed.

Lemma sorted_by_timestamp_spec_witness :
  let s1 : step_record := ({| declared_step_id := "b"; step_label := None |}, Some (RNum 30)) in
  let s2 : step_record := ({| declared_step_id := "a"; step_label := None |}, None) in
  let s3 : step_record := ({| declared_step_id := "c"; step_label := None |}, Some (RNum 12)) in
  sorted_by_timestamp snd [s1; s2; s3] = Some [s2; s3; s1] /\
  (Permutation [s2; s3; s1] [s1; s2; s3] /\ Sorted (ts_le snd) [s2; s3; s1]).
Proof.
  intros s1 s2 s3.
  assert (H : sorted_by_timestamp snd [s1; s2; s3] = Some [s2; s3; s1])
    by (vm_compute; reflexivity).
  split; [exact H | exact (sorted_by_timestamp_spec snd [s1; s2; s3] _ H)].
Defined.



(** ** [generate_report] *)

Ltac destr_put E :=
  match goal with
  | |- context [?put ?k ?c ?ct] =>
      match type of put with
      | string -> string -> string -> option unit =>
          let u := fresh "u" in destruct (put k c ct) as [u |] eqn:E
      end
  end.

Ltac destr_presign E :=
  match goal with
  | |- context [?presign ?k] =>
      match type of presign with
      | string -> option string =>
          let url := fresh "url" in destruct (presign k) as [url |] eqn:E
      end
  end.

(** X17: a missing session or an unsupported format is reported as an error
    and nothing is written to S3; otherwise at most one object is written,
    and a success names exactly the object written, at
    [cme-reports/<session_id>/report.<ext>], with the extension and content
    type of the requested format ([html] with [text/html], [json] with
    [application/json]) and the presigned URL of that key. *)
Theorem generate_report_outcomes {D} (report_data : option D) render_html dumps_json
    put_object presign session_id fmt :
  let out := generate_report report_data render_html dumps_json put_object presign
                             session_id fmt in
  (report_data = None -> out = ([], ReportErr ErrNotFound)) /\
  (report_data <> None -> fmt <> "html" -> fmt <> "json" ->
   out = ([], ReportErr (ErrUnsupported fmt))) /\
  (length (fst out) <= 1)%nat /\
  (forall key url f, snd out = ReportOk key url f ->
   f = fmt /\ presign key = Some url /\
   exists content content_type ext,
     fst out = [(key, content, content_type)] /\
     key = "cme-reports/" ++ session_id ++ "/report." ++ ext /\
     put_object key content content_type <> None /\
     ((fmt = "html" /\ ext = "html" /\ content_type = "text/html") \/
      (fmt = "json" /\ ext = "json" /\ content_type = "application/json"))).
Proof.
  intro out; unfold out, generate_report; clear out; cbv zeta.
  destruct report_data as [data |].
  2: { split; [reflexivity | split; [intro H; contradiction H; reflexivity |]].
       split; [cbn; lia | intros k url f H; discriminate H]. }
  split; [discriminate |].
  split.
  { intros _ Hh Hj.
    destruct (String.eqb_spec fmt "html"); [contradiction |].
    destruct (String.eqb_spec fmt "json"); [contradiction | reflexivity]. }
  destruct (String.eqb_spec fmt "html") as [Eh | Eh].
  - destruct (render_html data) as [c |]; [| split; [cbn; lia | discriminate]].
    cbv beta iota.
    destr_put Ep; [| split; [cbn; lia | discriminate]].
    destr_presign Eu; [| split; [cbn; lia | discriminate]].
    split; [cbn; lia |].
    intros k url' f H; cbn [snd] in H; inversion H; subst.
    split; [reflexivity | split; [exact Eu |]].
    exists c, "text/html", "html"; split; [reflexivity | split; [reflexivity |]].
    split; [intro E; assert (F : Some u = None) by (rewrite <- Ep; exact E);
             discriminate F | left; auto].
  - destruct (String.eqb_spec fmt "json") as [Ej | Ej].
    + cbv beta iota.
      destr_put Ep; [| split; [cbn; lia | discriminate]].
      destr_presign Eu; [| split; [cbn; lia | discriminate]].
      split; [cbn; lia |].
      intros k url' f H; cbn [snd] in H; inversion H; subst.
      split; [reflexivity | split; [exact Eu |]].
      exists (dumps_json data), "application/json", "json".
      split; [reflexivity | split; [reflexivity |]].
      split; [intro E; assert (F : Some u = None) by (rewrite <- Ep; exact E);
               discriminate F | right; auto].
    + split; [cbn; lia | discriminate].
Qed.

Lemma generate_report_outcomes_witness :
  let out := generate_report (Some tt) (fun _ => Some "<html></html>") (fun _ => "{}")
               (fun _ _ _ => Some tt) (fun k => Some ("https://s3/" ++ k)) "s1" "html" in
  snd out = ReportOk "cme-reports/s1/report.html" "https://s3/cme-reports/s1/report.html"
                     "html" /\
  ((Some tt = None -> out = ([], ReportErr ErrNotFound)) /\
   (Some tt <> None -> "html" <> "html" -> "html" <> "json" ->
    out = ([], ReportErr (ErrUnsupported "html"))) /\
   (length (fst out) <= 1)%nat /\
   (forall key url f, snd out = ReportOk key url f ->
    f = "html" /\ (fun k => Some ("https://s3/" ++ k)) key = Some url /\
    exists content content_type ext,
      fst out = [(key, content, content_type)] /\
      key = "cme-reports/" ++ "s1" ++ "/report." ++ ext /\
      (fun _ _ _ => Some tt) key content content_type <> None /\
      (("html" = "html" /\ ext = "html" /\ content_type = "text/html") \/
       ("html" = "json" /\ ext = "json" /\ content_type = "application/json")))).
Proof.
  intro out; split; [reflexivity |].
  exact (generate_report_outcomes (Some tt) (fun _ => Some "<html></html>") (fun _ => "{}")
           (fun _ _ _ => Some tt) (fun k => Some ("https://s3/" ++ k)) "s1" "html").
Defined.

(** ** Stability of the timestamp sort *)

Section SortStability.

Context {A : Type}.

Lemma sorted_head_le k' (y : A) l :
  Sorted key_le ((k', y) :: l) -> forall p, In p l -> k' <= fst p.
Proof.
  intros Hs p Hp.
  apply Sorted_StronglySorted in Hs;
    [| intros a b c Hab Hbc; unfold key_le in *; eapply Qle_trans; eauto].
  apply StronglySorted_inv in Hs as [_ Hf].
  rewrite Forall_forall in Hf; exact (Hf p Hp).
Qed.

Lemma filter_insert_by_key q k x (l : list (Q * A)) :
  Sorted key_le l ->
  filter (key_is q) (insert_by_key k x l) =
  if key_is q (k, x) then (filter (key_is q) l ++ [(k, x)])%list else filter (key_is q) l.
Proof.
  induction l as [| [k' y] l IH]; intro Hs; simpl.
  - destruct (key_is q (k, x)); reflexivity.
  - destruct (Qltb k k') eqn:E.
    + apply Qltb_true in E.
      destruct (key_is q (k, x)) eqn:Ek; cbn [filter]; rewrite Ek; [| reflexivity].
      assert (Hnone : filter (key_is q) ((k', y) :: l) = []).
      { apply filter_all_false; intros p Hp.
        unfold key_is in *; cbn in Ek; apply Qeq_bool_iff in Ek.
        destruct (Qeq_bool (fst p) q) eqn:Ep; [| reflexivity].
        apply Qeq_bool_iff in Ep; exfalso.
        destruct Hp as [<- | Hp]; cbn in Ep; [lra |].
        pose proof (sorted_head_le k' y l Hs p Hp); lra. }
      cbn [filter] in Hnone; rewrite Hnone; reflexivity.
    + inversion Hs as [| ? ? Hs' _]; subst.
      cbn [filter]; rewrite (IH Hs').
      destruct (key_is q (k', y)), (key_is q (k, x)); reflexivity.
Qed.

Lemma filter_sort_by_key q (kvs acc : list (Q * A)) :
  Sorted key_le acc ->
  filter (key_is q) (fold_left (fun acc '(k, x) => insert_by_key k x acc) kvs acc) =
  (filter (key_is q) acc ++ filter (key_is q) kvs)%list.
Proof.
  revert acc; induction kvs as [| [k x] kvs IH]; intros acc Hs; simpl.
  - rewrite app_nil_r; reflexivity.
  - rewrite (IH _ (insert_by_key_sorted k x acc Hs)), (filter_insert_by_key q k x acc Hs).
    destruct (key_is q (k, x)); [rewrite <- app_assoc; reflexivity | reflexivity].
Qed.

Lemma filter_map_snd q timestamp_of (kvs : list (Q * A)) :
  Forall (key_ok timestamp_of) kvs ->
  filter (has_timestamp q timestamp_of) (map snd kvs) = map snd (filter (key_is q) kvs).
Proof.
  induction kvs as [| [k x] kvs IH]; intro Hf; simpl; [reflexivity |].
  inversion Hf as [| ? ? Hx Hf']; subst.
  unfold has_timestamp at 1, key_is at 1; unfold key_ok in Hx; cbn in Hx |- *.
  rewrite Hx, (IH Hf').
  destruct (Qeq_bool k q); reflexivity.
Qed.

End SortStability.

(** X16: the sort is stable, like Python's [sorted]: the records sharing any
    one timestamp value come out in the order the table scan returned them.
    With X14 this fixes the output: it is the stable sort of the input by
    timestamp. *)
Theorem sorted_by_timestamp_stable {A} (timestamp_of : A -> option raw_time) l out
    (H : sorted_by_timestamp timestamp_of l = Some out) :
  forall q, filter (has_timestamp q timestamp_of) out = filter (has_timestamp q timestamp_of) l.
Proof.
  intro q.
  unfold sorted_by_timestamp in H.
  destruct (map_opt _ l) as [kvs |] eqn:Ek; [| discriminate]; simpl in H.
  inversion H; subst out.
  destruct (keyed_map_opt timestamp_of l kvs Ek) as [Hm Hf].
  pose proof (sort_by_key_perm kvs []) as Hp; rewrite app_nil_r in Hp.
  assert (Hf' : Forall (key_ok timestamp_of) (sort_by_key kvs)).
  { rewrite Forall_forall in Hf |- *; intros p Hin.
    apply Hf; apply (Permutation_in _ Hp); exact Hin. }
  rewrite (filter_map_snd q timestamp_of _ Hf').
  rewrite <- Hm, (filter_map_snd q timestamp_of _ Hf).
  unfold sort_by_key; rewrite filter_sort_by_key by constructor.
  reflexivity.
Qed.

Lemma sorted_by_timestamp_stable_witness :
  let s1 : step_record := ({| declared_step_id := "b"; step_label := None |}, Some (RNum 5)) in
  let s2 : step_record := ({| declared_step_id := "a"; step_label := None |}, Some (RNum 1)) in
  let s3 : step_record := ({| declared_step_id := "c"; step_label := None |}, Some (RNum 5)) in
  sorted_by_timestamp snd [s1; s2; s3] = Some [s2; s1; s3] /\
  filter (has_timestamp 5 snd) [s2; s1; s3] = filter (has_timestamp 5 snd) [s1; s2; s3].
Proof.
  intros s1 s2 s3.
  assert (H : sorted_by_timestamp snd [s1; s2; s3] = Some [s2; s1; s3])
    by (vm_compute; reflexivity).
  split; [exact H | exact (sorted_by_timestamp_stable snd [s1; s2; s3] _ H 5)].
Defined.
